(** * Pravah_S: house-price prediction backend

    A shallow embedding of [backend/app/ml/preprocessing.py] (the field
    cleaners, the column names, the price-per-square-foot filter of
    [preprocess_dataset] and the feature columns), of
    [backend/app/ml/predictor.py] (the [PredictionEngine] singleton,
    [load_model], [is_loaded], [predict], [get_locations] and
    [get_model_info]), of the location validator of
    [backend/app/schemas/prediction.py], of [predict_price] and
    [health_check] of [backend/app/api/routes.py] and of the start-up of
    [backend/app/main.py], followed by the properties of the specification
    that concern them and by further properties of the code.

    Conventions of the embedding.
    - A Python [str] is a Rocq [string] holding its UTF-8 bytes.  Case
      mapping and whitespace are modelled on the ASCII range, where they
      agree with CPython; the rupee sign of [clean_price] is its three-byte
      encoding.
    - A value produced by [float(str)] is a [pyfloat]: a rational that is
      the correctly rounded binary64 value, or an infinity, or NaN.
    - The floating-point arithmetic of [predict] (which takes a square
      root) is carried out on the real numbers.
    - A call that may raise returns a [pyresult]. *)

From Stdlib Require Import ZArith QArith Qround Reals Lra Lia List Ascii String DecimalString.
From stdpp Require Import gmap strings list fin_maps sorting.
Import ListNotations.

Local Open Scope Z_scope.

(** ** The Python runtime the two modules rely on *)

Module Py.

(** The exception classes that the embedded code can raise. *)
Inductive exn : Type :=
| ValueError
| OverflowError
| KeyError
| RuntimeError
| FileNotFoundError
| AttributeError
| TypeError
| ZeroDivisionError.

#[global] Instance exn_eq_dec : EqDecision exn.
Proof. solve_decision. Defined.

(** The outcome of a call: a value, or a raised exception. *)
Inductive pyresult (A : Type) : Type :=
| Ok (a : A)
| Raise (e : exn).
Arguments Ok {A} a.
Arguments Raise {A} e.

Definition bind {A B : Type} (r : pyresult A) (k : A -> pyresult B) : pyresult B :=
  match r with
  | Ok a => k a
  | Raise e => Raise e
  end.

(** [try: body except E: handler] for a handler that ignores the exception
    object. *)
Definition try_except {A : Type} (body : pyresult A) (E : exn) (handler : pyresult A)
  : pyresult A :=
  match body with
  | Ok a => Ok a
  | Raise e => if decide (e = E) then handler else Raise e
  end.

Definition returns {A : Type} (r : pyresult A) : Prop :=
  exists a, r = Ok a.

(** *** Characters and strings *)

Definition chars : Type := list ascii.

Definition code (c : ascii) : N := N_of_ascii c.

(** [str.isspace] on the ASCII range: TAB, LF, VT, FF, CR, the four
    separators FS, GS, RS, US, and the space. *)
Definition isspace (c : ascii) : bool :=
  let n := code c in
  ((9 <=? n) && (n <=? 13) || (28 <=? n) && (n <=? 31) || (n =? 32))%N.

(** C's [Py_ISSPACE], used by [float(str)] to trim its argument. *)
Definition Py_ISSPACE (c : ascii) : bool :=
  let n := code c in
  ((9 <=? n) && (n <=? 13) || (n =? 32))%N.

Definition isdigit (c : ascii) : bool :=
  let n := code c in ((48 <=? n) && (n <=? 57))%N.

Definition digit_val (c : ascii) : Z := Z.of_N (code c) - 48.

Definition lower_char (c : ascii) : ascii :=
  let n := code c in
  if ((65 <=? n) && (n <=? 90))%N then ascii_of_N (n + 32) else c.

Definition upper_char (c : ascii) : ascii :=
  let n := code c in
  if ((97 <=? n) && (n <=? 122))%N then ascii_of_N (n - 32) else c.

Fixpoint lstrip_by (sp : ascii -> bool) (cs : chars) : chars :=
  match cs with
  | [] => []
  | c :: rest => if sp c then lstrip_by sp rest else cs
  end.

Definition rstrip_by (sp : ascii -> bool) (cs : chars) : chars :=
  rev (lstrip_by sp (rev cs)).

Definition strip_by (sp : ascii -> bool) (cs : chars) : chars :=
  rstrip_by sp (lstrip_by sp cs).

(** [s.strip()], [s.lower()], [s.upper()], exact on ASCII text.  On other
    text Python also trims the Unicode whitespace (U+00A0 and the like) and
    maps the cased characters beyond ASCII (the Kelvin sign to [k], for
    one), which these leave alone: a statement that depends on them is made
    for ASCII text. *)
Definition strip (s : string) : string :=
  string_of_list_ascii (strip_by isspace (list_ascii_of_string s)).

Definition lower (s : string) : string :=
  string_of_list_ascii (map lower_char (list_ascii_of_string s)).

Definition upper (s : string) : string :=
  string_of_list_ascii (map upper_char (list_ascii_of_string s)).

Fixpoint starts_with (p cs : chars) : option chars :=
  match p, cs with
  | [], _ => Some cs
  | _ :: _, [] => None
  | a :: p', c :: cs' =>
      if decide (a = c) then starts_with p' cs' else None
  end.

(** [s.replace(old, "")]: the occurrences of [old] are removed from left
    to right, without overlap.  [skip] counts the characters of the current
    occurrence that remain to be dropped. *)
Fixpoint remove_all (old : chars) (skip : nat) (cs : chars) : chars :=
  match cs with
  | [] => []
  | c :: rest =>
      match skip with
      | S k => remove_all old k rest
      | O =>
          match starts_with old cs with
          | Some _ => remove_all old (List.length old - 1) rest
          | None => c :: remove_all old 0 rest
          end
      end
  end.

Definition replace_with_empty (old s : string) : string :=
  match old with
  | EmptyString => s
  | String _ _ =>
      string_of_list_ascii
        (remove_all (list_ascii_of_string old) 0 (list_ascii_of_string s))
  end.

(** *** Floats *)

Inductive pyfloat : Type :=
| Finite (q : Q)
| PosInf
| NegInf
| NaN.

Definition Qpow2 (k : Z) : Q :=
  if 0 <=? k then inject_Z (2 ^ k) else / inject_Z (2 ^ (- k)).

(** Round to the nearest integer, ties to the even one. *)
Definition Qround_half_even (q : Q) : Z :=
  let f := Qfloor q in
  match (q - inject_Z f ?= 1 # 2)%Q with
  | Lt => f
  | Gt => f + 1
  | Eq => if Z.even f then f else f + 1
  end.

(** The exponent [e] with [2^e <= q < 2^(e+1)], for [q > 0]. *)
Definition Qlog2_floor (q : Q) : Z :=
  let e0 := Z.log2 (Qnum q) - Z.log2 (Zpos (Qden q)) in
  if Qle_bool (Qpow2 e0) q then e0 else e0 - 1.

(** A positive rational rounded to binary64 (53-bit significand, exponents
    from -1022 to 1023, gradual underflow, overflow to infinity). *)
Definition round_binary64_pos (q : Q) : pyfloat :=
  let e := Z.max (Qlog2_floor q) (-1022) in
  let k := e - 52 in
  let m := Qround_half_even (q / Qpow2 k) in
  let v := (inject_Z m * Qpow2 k)%Q in
  if Qle_bool (Qpow2 1024) v then PosInf else Finite v.

Definition fneg (x : pyfloat) : pyfloat :=
  match x with
  | Finite q => Finite (- q)
  | PosInf => NegInf
  | NegInf => PosInf
  | NaN => NaN
  end.

Definition round_binary64 (q : Q) : pyfloat :=
  match (q ?= 0)%Q with
  | Eq => Finite 0
  | Gt => round_binary64_pos q
  | Lt => fneg (round_binary64_pos (- q))
  end.

(** [x <= 0.0] and [x > 0.0]-style comparisons: false on NaN. *)
Definition fle (x y : pyfloat) : bool :=
  match x, y with
  | NaN, _ | _, NaN => false
  | NegInf, _ => true
  | _, PosInf => true
  | PosInf, _ => false
  | _, NegInf => false
  | Finite a, Finite b => Qle_bool a b
  end.

Definition flt (x y : pyfloat) : bool :=
  match x, y with
  | NaN, _ | _, NaN => false
  | PosInf, _ => false
  | _, NegInf => false
  | NegInf, _ => true
  | _, PosInf => true
  | Finite a, Finite b => negb (Qle_bool b a)
  end.

(** Division of two float64 values as NumPy performs it: no exception, the
    quotient correctly rounded.  Zero carries no sign here. *)
Definition fdiv (x y : pyfloat) : pyfloat :=
  match x, y with
  | NaN, _ | _, NaN => NaN
  | Finite a, Finite b =>
      match (b ?= 0)%Q with
      | Eq =>
          match (a ?= 0)%Q with
          | Eq => NaN
          | Gt => PosInf
          | Lt => NegInf
          end
      | _ => round_binary64 (a / b)
      end
  | Finite _, (PosInf | NegInf) => Finite 0
  | PosInf, Finite b => if Qle_bool 0 b then PosInf else NegInf
  | NegInf, Finite b => if Qle_bool 0 b then NegInf else PosInf
  | (PosInf | NegInf), (PosInf | NegInf) => NaN
  end.

(** [int(x)] for a float: truncation towards zero. *)
Definition int_of_float (x : pyfloat) : pyresult Z :=
  match x with
  | Finite q => Ok (Qnum q ÷ Zpos (Qden q))
  | PosInf | NegInf => Raise OverflowError
  | NaN => Raise ValueError
  end.

(** *** [float(str)]

    CPython removes the underscores that stand between two digits (any other
    underscore is an error), trims the text with [Py_ISSPACE], and reads
    either a decimal number (sign, digits, optional point and digits,
    optional exponent) or one of [inf], [infinity], [nan] in any case.  The
    whole text must be consumed.  The value is the decimal number correctly
    rounded to binary64.  The digits read are the ASCII ones; CPython also
    reads the other decimal digits of Unicode (a fullwidth 2 as 2), on which
    this parser answers [ValueError]. *)

Definition NUL : ascii := ascii_of_N 0.

Fixpoint strip_underscores (prev : ascii) (cs : chars) : option chars :=
  match cs with
  | [] => if decide (prev = "_"%char) then None else Some []
  | c :: rest =>
      if decide (c = "_"%char) then
        if isdigit prev then strip_underscores c rest else None
      else if decide (prev = "_"%char) then
        if isdigit c then option_map (cons c) (strip_underscores c rest) else None
      else option_map (cons c) (strip_underscores c rest)
  end.

Definition parse_sign (cs : chars) : bool * chars :=
  match cs with
  | c :: rest =>
      if decide (c = "-"%char) then (true, rest)
      else if decide (c = "+"%char) then (false, rest)
      else (false, cs)
  | [] => (false, cs)
  end.

Fixpoint span_digits (cs : chars) : chars * chars :=
  match cs with
  | c :: rest =>
      if isdigit c then let (ds, r) := span_digits rest in (c :: ds, r)
      else ([], cs)
  | [] => ([], [])
  end.

Definition digits_val (ds : chars) : Z :=
  fold_left (fun acc c => 10 * acc + digit_val c) ds 0.

Definition Qpow10 (k : Z) : Q :=
  if 0 <=? k then inject_Z (10 ^ k) else / inject_Z (10 ^ (- k)).

Definition is_exp_mark (c : ascii) : bool :=
  if decide (c = "e"%char) then true
  else if decide (c = "E"%char) then true else false.

(** The exponent part: [None] when the remaining text is not exactly an
    exponent, which leaves unread characters behind. *)
Definition parse_exponent (cs : chars) : option Z :=
  match cs with
  | [] => Some 0
  | c :: rest =>
      if is_exp_mark c then
        let (eneg, r1) := parse_sign rest in
        let (ed, r2) := span_digits r1 in
        match ed, r2 with
        | _ :: _, [] => Some (if eneg then - digits_val ed else digits_val ed)
        | _, _ => None
        end
      else None
  end.

Definition parse_decimal (cs : chars) : option Q :=
  let (neg, cs1) := parse_sign cs in
  let (ip, cs2) := span_digits cs1 in
  let (fp, cs3) :=
    match cs2 with
    | c :: r => if decide (c = "."%char) then span_digits r else ([], cs2)
    | [] => ([], cs2)
    end in
  match ip ++ fp with
  | [] => None
  | _ :: _ =>
      match parse_exponent cs3 with
      | None => None
      | Some e =>
          let m := (inject_Z (digits_val (ip ++ fp))
                    * Qpow10 (e - Z.of_nat (List.length fp)))%Q in
          Some (if neg then (- m)%Q else m)
      end
  end.

Definition parse_inf_or_nan (cs : chars) : option pyfloat :=
  let (neg, r) := parse_sign cs in
  let l := string_of_list_ascii (map lower_char r) in
  if decide (l = "inf"%string) then Some (if neg then NegInf else PosInf)
  else if decide (l = "infinity"%string) then Some (if neg then NegInf else PosInf)
  else if decide (l = "nan"%string) then Some NaN
  else None.

Definition float_of_chars (cs : chars) : pyresult pyfloat :=
  match strip_underscores NUL cs with
  | None => Raise ValueError
  | Some cs' =>
      let body := strip_by Py_ISSPACE cs' in
      match parse_decimal body with
      | Some q => Ok (round_binary64 q)
      | None =>
          match parse_inf_or_nan body with
          | Some x => Ok x
          | None => Raise ValueError
          end
      end
  end.

Definition float_of_string (s : string) : pyresult pyfloat :=
  float_of_chars (list_ascii_of_string s).

(** *** Raw cell values

    What a cleaner receives from a column read from CSV: a missing marker
    ([None] or a float NaN), a string, an integer or a boolean.  An integer
    is one that [str] prints, which CPython does up to 4300 digits. *)
Inductive pyval : Type :=
| VNone
| VNaN
| VStr (s : string)
| VInt (z : Z)
| VBool (b : bool).

(** [pd.isna(v)] on a scalar. *)
Definition isna (v : pyval) : bool :=
  match v with
  | VNone | VNaN => true
  | _ => false
  end.

(** [str(v)]. *)
Definition str (v : pyval) : string :=
  match v with
  | VNone => "None"
  | VNaN => "nan"
  | VStr s => s
  | VInt z => NilZero.string_of_int (Z.to_int z)
  | VBool true => "True"
  | VBool false => "False"
  end.

(** *** Further string methods and builtins *)

(** A cased character of the ASCII range: a letter. *)
Definition is_cased (c : ascii) : bool :=
  let n := code c in
  ((65 <=? n) && (n <=? 90) || (97 <=? n) && (n <=? 122))%N.

(** [s.title()]: a letter that follows a letter is lower-cased, any other
    letter is upper-cased. *)
Fixpoint title_chars (previous_is_cased : bool) (cs : chars) : chars :=
  match cs with
  | [] => []
  | c :: rest =>
      (if previous_is_cased then lower_char c else upper_char c)
        :: title_chars (is_cased c) rest
  end.

Definition title (s : string) : string :=
  string_of_list_ascii (title_chars false (list_ascii_of_string s)).

(** [s.replace(old, new)] for two one-character strings. *)
Definition replace_char (old new : ascii) (s : string) : string :=
  string_of_list_ascii
    (map (fun c => if decide (c = old) then new else c) (list_ascii_of_string s)).

(** [sorted(l)] on strings: the order of [str] is the order of the code
    points, which the bytes of UTF-8 keep. *)
Definition str_le (a b : string) : Prop := String.leb a b = true.

#[global] Instance str_le_dec : RelDecision str_le.
Proof. intros a b. unfold str_le. apply _. Defined.

Definition sorted (l : list string) : list string := merge_sort str_le l.

(** [try: body except Exception: handler]. *)
Definition try_except_Exception {A : Type} (body handler : pyresult A) : pyresult A :=
  match body with
  | Ok a => Ok a
  | Raise _ => handler
  end.

(** [int(b)] for a boolean. *)
Definition int_of_bool (b : bool) : Z := if b then 1 else 0.

#[global] Instance pyresult_eq_dec {A : Type} `{EqDecision A} : EqDecision (pyresult A).
Proof. solve_decision. Defined.

End Py.

(** ** [app/ml/preprocessing.py] *)

Module Preprocessing.
Import Py.

Definition LOCATION_ALIASES : gmap string string :=
  list_to_map
    [ ("airoli", "Airoli");
      ("belapur", "Belapur");
      ("cbd belapur", "CBD Belapur");
      ("ghansoli", "Ghansoli");
      ("kharghar", "Kharghar");
      ("kopar khairane", "Kopar Khairane");
      ("nerul", "Nerul");
      ("panvel", "Panvel");
      ("sanpada", "Sanpada");
      ("ulwe", "Ulwe");
      ("vashi", "Vashi");
      ("juinagar", "Juinagar");
      ("rabale", "Rabale");
      ("taloja", "Taloja") ]%string.

Definition normalize_location (location : pyval) : pyresult (option string) :=
  if isna location || bool_decide (strip (str location) = ""%string) then Ok None
  else
    let cleaned := lower (strip (str location)) in
    Ok (LOCATION_ALIASES !! cleaned).

(** [re.sub(r"[₹,INR\s]", "", s)]: the rupee sign is the byte sequence
    E2 82 B9. *)
Definition in_price_class (c : ascii) : bool :=
  bool_decide (c = ","%char) || bool_decide (c = "I"%char)
  || bool_decide (c = "N"%char) || bool_decide (c = "R"%char) || isspace c.

Definition is_rupee (a b c : ascii) : bool :=
  ((code a =? 226) && (code b =? 130) && (code c =? 185))%N.

Fixpoint sub_price_class (cs : chars) : chars :=
  match cs with
  | [] => []
  | a :: t1 =>
      match t1 with
      | b :: (c :: t3) =>
          if is_rupee a b c then sub_price_class t3
          else if in_price_class a then sub_price_class t1
          else a :: sub_price_class t1
      | _ =>
          if in_price_class a then sub_price_class t1
          else a :: sub_price_class t1
      end
  end.

Definition re_sub_price (s : string) : string :=
  string_of_list_ascii (sub_price_class (list_ascii_of_string s)).

Definition clean_price (price_val : pyval) : pyresult (option pyfloat) :=
  if isna price_val then Ok None
  else
    let price_str := strip (str price_val) in
    let price_str := re_sub_price price_str in
    try_except
      (bind (float_of_string price_str) (fun price =>
         if fle price (Finite 0) then Ok None else Ok (Some price)))
      ValueError
      (Ok None).

Definition clean_bhk (bhk_val : pyval) : pyresult (option Z) :=
  if isna bhk_val then Ok None
  else
    let bhk_str := upper (strip (str bhk_val)) in
    let bhk_str := strip (replace_with_empty "BHK" bhk_str) in
    try_except
      (bind (float_of_string bhk_str) (fun x =>
       bind (int_of_float x) (fun bhk =>
         if (1 <=? bhk) && (bhk <=? 6) then Ok (Some bhk) else Ok None)))
      ValueError
      (Ok None).

Definition clean_floor (floor_val : pyval) : pyresult (option Z) :=
  if isna floor_val then Ok None
  else
    let floor_str := lower (strip (str floor_val)) in
    if bool_decide (floor_str = "ground"%string) then Ok (Some 0)
    else
      try_except
        (bind (float_of_string floor_str) (fun x =>
         bind (int_of_float x) (fun floor =>
           if (0 <=? floor) && (floor <=? 100) then Ok (Some floor) else Ok None)))
        ValueError
        (Ok None).

Definition clean_yes_no (val : pyval) : pyresult (option Z) :=
  if isna val then Ok None
  else
    let cleaned := lower (strip (str val)) in
    if bool_decide (cleaned ∈ ["yes"; "y"; "1"; "true"]%string) then Ok (Some 1)
    else if bool_decide (cleaned ∈ ["no"; "n"; "0"; "false"]%string) then Ok (Some 0)
    else Ok None.

(** *** The table handled by [preprocess_dataset]

    A pandas [DataFrame] as an ordered list of column names and a list of
    rows; a row carries its index label and its cells by column name.  A
    cell that a row lacks reads as NaN, as in a frame built from records. *)

Inductive cell : Type :=
| CNum (x : pyfloat)
| CStr (s : string).

Record Row : Type := mkRow {
  label : Z;
  cells : gmap string cell;
}.

Record DataFrame : Type := mkDataFrame {
  columns : list string;
  rows : list Row;
}.

Definition row_get (r : Row) (c : string) : cell :=
  default (CNum NaN) (cells r !! c).

(** [df[c]]: the column as a positional series. *)
Definition getitem_column (df : DataFrame) (c : string) : pyresult (list cell) :=
  if bool_decide (c ∈ columns df) then Ok (map (fun r => row_get r c) (rows df))
  else Raise KeyError.

Definition cell_div (a b : cell) : pyresult cell :=
  match a, b with
  | CNum x, CNum y => Ok (CNum (fdiv x y))
  | _, _ => Raise TypeError
  end.

Definition cell_gt (k : pyfloat) (a : cell) : pyresult bool :=
  match a with
  | CNum x => Ok (flt k x)
  | CStr _ => Raise TypeError
  end.

Definition cell_lt (k : pyfloat) (a : cell) : pyresult bool :=
  match a with
  | CNum x => Ok (flt x k)
  | CStr _ => Raise TypeError
  end.

Fixpoint mapM {A B : Type} (f : A -> pyresult B) (l : list A) : pyresult (list B) :=
  match l with
  | [] => Ok []
  | a :: l' => bind (f a) (fun b => bind (mapM f l') (fun bs => Ok (b :: bs)))
  end.

(** [s1 / s2] on two series of the same frame. *)
Definition series_div (s1 s2 : list cell) : pyresult (list cell) :=
  mapM (fun ab => cell_div (fst ab) (snd ab)) (combine s1 s2).

(** [df[c] = s]: a new column goes last, an existing one keeps its place. *)
Definition setitem_column (df : DataFrame) (c : string) (s : list cell) : DataFrame :=
  {| columns := if bool_decide (c ∈ columns df) then columns df else columns df ++ [c];
     rows := map (fun rv => mkRow (label (fst rv)) (<[c := snd rv]> (cells (fst rv))))
                 (combine (rows df) s) |}.

(** [df[mask]] for a boolean series computed from [df] itself. *)
Definition select_rows (df : DataFrame) (mask : list bool) : DataFrame :=
  {| columns := columns df;
     rows := map fst (filter (fun rm => snd rm = true) (combine (rows df) mask)) |}.

(** [df.drop(columns=[c])]. *)
Definition drop_column (df : DataFrame) (c : string) : pyresult DataFrame :=
  if bool_decide (c ∈ columns df) then
    Ok {| columns := filter (fun c' => c' ≠ c) (columns df);
          rows := map (fun r => mkRow (label r) (delete c (cells r))) (rows df) |}
  else Raise KeyError.

(** [df.reset_index(drop=True)]. *)
Definition reset_index (df : DataFrame) : DataFrame :=
  {| columns := columns df;
     rows := imap (fun i r => mkRow (Z.of_nat i) (cells r)) (rows df) |}.

(** [df[c] = df[a] / df[b]]. *)
Definition assign_ratio (df : DataFrame) (c a b : string) : pyresult DataFrame :=
  bind (getitem_column df a) (fun x =>
  bind (getitem_column df b) (fun y =>
  bind (series_div x y) (fun s =>
  Ok (setitem_column df c s)))).

(** [df[df[c] > k]] and [df[df[c] < k]]. *)
Definition where_gt (df : DataFrame) (c : string) (k : pyfloat) : pyresult DataFrame :=
  bind (getitem_column df c) (fun s =>
  bind (mapM (cell_gt k) s) (fun mask =>
  Ok (select_rows df mask))).

Definition where_lt (df : DataFrame) (c : string) (k : pyfloat) : pyresult DataFrame :=
  bind (getitem_column df c) (fun s =>
  bind (mapM (cell_lt k) s) (fun mask =>
  Ok (select_rows df mask))).

(** The last stage of [preprocess_dataset] (steps 11 and 12 of its
    comments, source lines 251 to 262), statement by statement: the helper
    column [price_per_sqft] is computed, the rows are filtered on it twice,
    the column is dropped and the index is reset. *)
Definition preprocess_dataset_price_per_sqft (df : DataFrame) : pyresult DataFrame :=
  bind (assign_ratio df "price_per_sqft" "actual_price" "area_sqft") (fun df =>
  bind (where_gt df "price_per_sqft" (Finite 2000)) (fun df =>
  bind (where_lt df "price_per_sqft" (Finite 50000)) (fun df =>
  bind (drop_column df "price_per_sqft") (fun df =>
  Ok (reset_index df))))).

(** *** The constants and the header clean-up *)

Definition VALID_LOCATIONS : list string :=
  [ "Airoli"; "Belapur"; "CBD Belapur"; "Ghansoli"; "Kharghar"; "Kopar Khairane";
    "Nerul"; "Panvel"; "Sanpada"; "Ulwe"; "Vashi"; "Juinagar"; "Rabale";
    "Taloja" ]%string.

(** Line 185: [col.strip().lower().replace(" ", "_")]. *)
Definition standardize_column (col : string) : string :=
  replace_char " " "_" (lower (strip col)).

Definition get_feature_columns : list string :=
  [ "location"; "area_sqft"; "bhk"; "bathrooms"; "floor"; "total_floors";
    "age_of_property"; "parking"; "lift" ]%string.

Definition get_target_column : string := "actual_price".

End Preprocessing.

(** ** [app/ml/predictor.py] *)

Module Predictor.
Import Py.

Local Open Scope R_scope.

(** *** A state-and-exception monad

    [load_model] assigns the attributes of [self] one after the other and
    may raise in between; [predict] calls into the bundle's objects and may
    raise in between.  Both are written in [M S]: a computation over a state
    [S] whose exceptions keep the state reached so far. *)

Definition M (S A : Type) : Type := S -> pyresult A * S.

Definition ret {S A : Type} (a : A) : M S A := fun s => (Ok a, s).

Definition mbind {S A B : Type} (m : M S A) (k : A -> M S B) : M S B :=
  fun s =>
    match m s with
    | (Ok a, s') => k a s'
    | (Raise e, s') => (Raise e, s')
    end.

Definition raise {S A : Type} (e : exn) : M S A := fun s => (Raise e, s).

Definition of_result {S A : Type} (r : pyresult A) : M S A := fun s => (r, s).

Definition modify {S : Type} (f : S -> S) : M S unit := fun s => (Ok tt, f s).

Notation "x <- c ;; k" := (mbind c (fun x => k))
  (at level 100, c at next level, right associativity).
Notation "c ;; k" := (mbind c (fun _ => k))
  (at level 100, right associativity).

(** *** The objects of a model bundle

    The regressor, the scaler and the encoder come from scikit-learn and are
    black boxes: each method is a function that may raise.  [predict] only
    ever passes one row, so a method takes that row and answers for it:
    [gbr_predict m x] is [m.predict(X)[0]] and [gbr_staged_predict m x] is
    [[p[0] for p in m.staged_predict(X)]]. *)

Record GradientBoostingRegressor : Type := {
  gbr_predict : list R -> pyresult R;
  gbr_staged_predict : list R -> pyresult (list R);
}.

(** The row handed to the scaler: the frame's columns in order, a column
    without a value holding NaN ([None]). *)
Record StandardScaler : Type := {
  scaler_transform : list (string * option R) -> pyresult (list R);
}.

Record LabelEncoder : Type := {
  le_transform : string -> pyresult Z;
}.

(** A dictionary that [joblib.load] returns.  For each key, [None] is an
    absent key and [Some v] a key that holds [v].  The values have the types
    of the attributes they are assigned to: under ["model"], ["scaler"] and
    ["label_encoder"] an object or Python's [None] (as [__init__] sets these
    attributes), under the other keys a list or a dictionary. *)
Record Bundle : Type := {
  b_model : option (option GradientBoostingRegressor);
  b_scaler : option (option StandardScaler);
  b_label_encoder : option (option LabelEncoder);
  b_features : option (list string);
  b_location_classes : option (list string);
  b_location_stats : option (gmap string (gmap string R));
  b_train_metrics : option (gmap string R);
  b_test_metrics : option (gmap string R);
  b_feature_importance : option (gmap string R);
}.

(** [bundle[key]] and [bundle.get(key, d)]. *)
Definition getitem {A : Type} (v : option A) : pyresult A :=
  match v with
  | Some a => Ok a
  | None => Raise KeyError
  end.

Definition get {A : Type} (v : option A) (d : A) : A :=
  match v with
  | Some a => a
  | None => d
  end.

(** *** The engine object *)

Record PredictionEngine : Type := mkEngine {
  _initialized : bool;
  model : option GradientBoostingRegressor;
  scaler : option StandardScaler;
  label_encoder : option LabelEncoder;
  features : list string;
  location_classes : list string;
  location_stats : gmap string (gmap string R);
  model_metrics : gmap string (gmap string R);
  feature_importance : gmap string R;
}.

Definition set_model v (self : PredictionEngine) : PredictionEngine :=
  mkEngine (_initialized self) v (scaler self) (label_encoder self) (features self)
    (location_classes self) (location_stats self) (model_metrics self)
    (feature_importance self).

Definition set_scaler v (self : PredictionEngine) : PredictionEngine :=
  mkEngine (_initialized self) (model self) v (label_encoder self) (features self)
    (location_classes self) (location_stats self) (model_metrics self)
    (feature_importance self).

Definition set_label_encoder v (self : PredictionEngine) : PredictionEngine :=
  mkEngine (_initialized self) (model self) (scaler self) v (features self)
    (location_classes self) (location_stats self) (model_metrics self)
    (feature_importance self).

Definition set_features v (self : PredictionEngine) : PredictionEngine :=
  mkEngine (_initialized self) (model self) (scaler self) (label_encoder self) v
    (location_classes self) (location_stats self) (model_metrics self)
    (feature_importance self).

Definition set_location_classes v (self : PredictionEngine) : PredictionEngine :=
  mkEngine (_initialized self) (model self) (scaler self) (label_encoder self)
    (features self) v (location_stats self) (model_metrics self)
    (feature_importance self).

Definition set_location_stats v (self : PredictionEngine) : PredictionEngine :=
  mkEngine (_initialized self) (model self) (scaler self) (label_encoder self)
    (features self) (location_classes self) v (model_metrics self)
    (feature_importance self).

Definition set_model_metrics v (self : PredictionEngine) : PredictionEngine :=
  mkEngine (_initialized self) (model self) (scaler self) (label_encoder self)
    (features self) (location_classes self) (location_stats self) v
    (feature_importance self).

Definition set_feature_importance v (self : PredictionEngine) : PredictionEngine :=
  mkEngine (_initialized self) (model self) (scaler self) (label_encoder self)
    (features self) (location_classes self) (location_stats self)
    (model_metrics self) v.

(** The object as [object.__new__] followed by
    [cls._instance._initialized = False] leaves it.  The other attributes do
    not exist yet; [__init__] creates them before anything reads them. *)
Definition blank : PredictionEngine :=
  mkEngine false None None None [] [] ∅ ∅ ∅.

(** The body of [__init__] after the [_initialized] guard. *)
Definition init_attributes : PredictionEngine :=
  mkEngine true None None None [] [] ∅ ∅ ∅.

(** *** The class and its single instance

    Objects live in a heap, addressed by their identity; the class attribute
    [_instance] holds the identity of the instance, once there is one. *)

Record World : Type := mkWorld {
  cls_instance : option nat;
  heap : gmap nat PredictionEngine;
}.

Definition initial_world : World := mkWorld None ∅.

(** [__new__]. *)
Definition PredictionEngine_new (w : World) : World * nat :=
  match cls_instance w with
  | None =>
      let l := fresh (dom (heap w)) in
      (mkWorld (Some l) (<[l := blank]> (heap w)), l)
  | Some l => (w, l)
  end.

(** [__init__]. *)
Definition PredictionEngine_init (l : nat) (w : World) : World :=
  match heap w !! l with
  | Some self =>
      if _initialized self then w
      else mkWorld (cls_instance w) (<[l := init_attributes]> (heap w))
  | None => w
  end.

(** The call [PredictionEngine()]: [__new__], then [__init__] on its
    result. *)
Definition construct (w : World) : World * nat :=
  let (w1, l) := PredictionEngine_new w in
  (PredictionEngine_init l w1, l).

(** *** [load_model] and [is_loaded] *)

(** What a file holds: a dictionary; or something that [joblib.load] cannot
    read, the call raising an exception of class [e] (a truncated or foreign
    file); or an object that does not support indexing (a list, an
    estimator, [None]), on which [bundle["model"]] raises [TypeError]. *)
Inductive Artifact : Type :=
| Dict (bundle : Bundle)
| Unreadable (e : exn)
| NotSubscriptable.

(** The files that exist, by path, and the configured [MODEL_PATH]. *)
Record Env : Type := {
  files : gmap string Artifact;
  settings_model_path : string;
}.

Definition load_model (env : Env) (model_path : option string) : M PredictionEngine unit :=
  let model_path :=
    match model_path with
    | None => settings_model_path env
    | Some p => p
    end in
  match files env !! model_path with
  | None => raise FileNotFoundError
  | Some (Unreadable e) => raise e
  | Some NotSubscriptable => raise TypeError
  | Some (Dict bundle) =>
      v <- of_result (getitem (b_model bundle)) ;; modify (set_model v) ;;
      v <- of_result (getitem (b_scaler bundle)) ;; modify (set_scaler v) ;;
      v <- of_result (getitem (b_label_encoder bundle)) ;; modify (set_label_encoder v) ;;
      v <- of_result (getitem (b_features bundle)) ;; modify (set_features v) ;;
      v <- of_result (getitem (b_location_classes bundle)) ;; modify (set_location_classes v) ;;
      modify (set_location_stats (get (b_location_stats bundle) ∅)) ;;
      modify (set_model_metrics
                (<["train"%string := get (b_train_metrics bundle) ∅]>
                   (<["test"%string := get (b_test_metrics bundle) ∅]> ∅))) ;;
      modify (set_feature_importance (get (b_feature_importance bundle) ∅))
  end.

Definition is_loaded (self : PredictionEngine) : bool :=
  match model self with
  | Some _ => true
  | None => false
  end.

(** [load_model] on the object at identity [l]. *)
Definition load_model_at (env : Env) (l : nat) (model_path : option string) (w : World)
  : pyresult unit * World :=
  match heap w !! l with
  | Some self =>
      let (r, self') := load_model env model_path self in
      (r, mkWorld (cls_instance w) (<[l := self']> (heap w)))
  | None => (Raise AttributeError, w)
  end.

(** *** Numbers of [predict] *)

(** [round(x, ndigits)]: to the nearest multiple of [10^-ndigits], ties to
    the even one. *)
Definition round_half_even (x : R) : Z :=
  let f := Zfloor x in
  let d := x - IZR f in
  if Rlt_dec d (1 / 2) then f
  else if Rlt_dec (1 / 2) d then (f + 1)%Z
  else if Z.even f then f else (f + 1)%Z.

Definition py_round (x : R) (ndigits : nat) : R :=
  IZR (round_half_even (x * 10 ^ ndigits)) / 10 ^ ndigits.

(** [xs[-n:]]. *)
Definition last_n {A : Type} (n : nat) (xs : list A) : list A :=
  skipn (List.length xs - n) xs.

Definition mean (xs : list R) : R :=
  fold_right Rplus 0 xs / INR (List.length xs).

(** [np.std(xs)] with NumPy's default [ddof=0]: the root of the mean squared
    deviation from the mean, the sum of squares being divided by the number
    of values (the uncorrected standard deviation of the sample).  On an
    empty list NumPy answers NaN, here [None]. *)
Definition np_std (xs : list R) : option R :=
  match xs with
  | [] => None
  | _ :: _ =>
      let mu := mean xs in
      Some (sqrt (mean (map (fun x => (x - mu) ^ 2) xs)))
  end.

(** [min(a, b)] and [max(a, b)] as the builtins compute them: the second
    argument replaces the first only when it compares strictly smaller
    (greater), which a NaN never does. *)
Definition py_min (a : R) (b : option R) : R :=
  match b with
  | Some b => if Rlt_dec b a then b else a
  | None => a
  end.

Definition py_max (a b : R) : R :=
  if Rlt_dec a b then b else a.

(** Lines 173 and 174: [max_std] and [confidence_score].  Dividing by a zero
    float raises.  On the reals the product is zero for a zero prediction
    only; the binary64 product is also zero for a prediction so small that
    it underflows (below 1e-322 in absolute value), and a binary64 score
    differs from the real one by the rounding of three operations, which
    shows in the returned score only where the real one is within that
    error of a tie of [round(_, 2)]. *)
Definition confidence_score_of (predicted_price : R) (std_dev : option R) : pyresult R :=
  let max_std := predicted_price * 0.15 in
  if Req_dec_T max_std 0 then Raise ZeroDivisionError
  else Ok (py_max 0.5 (py_min 1.0 ((fun sd => 1.0 - sd / max_std) <$> std_dev))).

(** Line 177. *)
Definition margin_of (confidence_score : R) : R :=
  0.08 + (1 - confidence_score) * 0.04.

(** *** The result of [predict] *)

Record PriceRange : Type := {
  low : R;
  high : R;
}.

Record LocationContext : Type := {
  ctx_name : string;
  ctx_avg_price : R;
  ctx_median_price : R;
  ctx_avg_price_per_sqft : R;
  ctx_data_points : R;
}.

Record InputSummary : Type := {
  in_location : string;
  in_area_sqft : R;
  in_bhk : Z;
  in_bathrooms : Z;
  in_floor : Z;
  in_total_floors : Z;
  in_age_of_property : R;
  in_parking : bool;
  in_lift : bool;
}.

Record PredictionResult : Type := {
  res_predicted_price : R;
  res_price_range : PriceRange;
  res_price_per_sqft : R;
  res_confidence_score : R;
  res_location_context : LocationContext;
  res_feature_importance : gmap string R;
  res_input_summary : InputSummary;
}.

(** *** [predict]

    The state of the computation is the list of the method calls made so far
    on the objects of the bundle. *)

Inductive event : Type :=
| EncoderTransform
| ScalerTransform
| ModelPredict
| ModelStagedPredict.

(** [obj.method(...)] where [obj] may be [None]. *)
Definition call_method {O A : Type} (obj : option O) (ev : event) (f : O -> pyresult A)
  : M (list event) A :=
  match obj with
  | None => raise AttributeError
  | Some o => fun t => (f o, t ++ [ev])
  end.

(** [d.get(k, 0)]. *)
Definition get0 (d : gmap string R) (k : string) : R :=
  match d !! k with
  | Some v => v
  | None => 0
  end.

(** [bool(n)]. *)
Definition bool_of_int (n : Z) : bool := negb (n =? 0)%Z.

(** The dictionary [feature_values] of lines 145 to 155. *)
Definition feature_values (location_encoded : Z)
    (area_sqft : R) (bhk bathrooms floor total_floors : Z)
    (age_of_property : R) (parking lift : Z) : gmap string R :=
  list_to_map
    [ ("location", IZR location_encoded);
      ("area_sqft", area_sqft);
      ("bhk", IZR bhk);
      ("bathrooms", IZR bathrooms);
      ("floor", IZR floor);
      ("total_floors", IZR total_floors);
      ("age_of_property", age_of_property);
      ("parking", IZR parking);
      ("lift", IZR lift) ]%string.

(** [pd.DataFrame([values], columns=columns)]: one row, the columns in the
    given order, NaN where the dictionary has no such key. *)
Definition one_row_frame (values : gmap string R) (columns : list string)
  : list (string * option R) :=
  map (fun c => (c, values !! c)) columns.

(** Lines 176 to 214: the margin, the price range, the price per square
    foot, the location context and the result dictionary. *)
Definition result_of (self : PredictionEngine)
    (location : string) (area_sqft : R) (bhk bathrooms floor total_floors : Z)
    (age_of_property : R) (parking lift : Z)
    (predicted_price confidence_score : R) : PredictionResult :=
  let margin := margin_of confidence_score in
  let price_low := predicted_price * (1 - margin) in
  let price_high := predicted_price * (1 + margin) in
  let price_per_sqft :=
    if Rlt_dec 0 area_sqft then predicted_price / area_sqft else 0 in
  let loc_stats := get (location_stats self !! location) ∅ in
  {| res_predicted_price := py_round predicted_price 0;
     res_price_range :=
       {| low := py_round price_low 0; high := py_round price_high 0 |};
     res_price_per_sqft := py_round price_per_sqft 0;
     res_confidence_score := py_round confidence_score 2;
     res_location_context :=
       {| ctx_name := location;
          ctx_avg_price := get0 loc_stats "mean_price";
          ctx_median_price := get0 loc_stats "median_price";
          ctx_avg_price_per_sqft := get0 loc_stats "avg_price_per_sqft";
          ctx_data_points := get0 loc_stats "count" |};
     res_feature_importance := feature_importance self;
     res_input_summary :=
       {| in_location := location;
          in_area_sqft := area_sqft;
          in_bhk := bhk;
          in_bathrooms := bathrooms;
          in_floor := floor;
          in_total_floors := total_floors;
          in_age_of_property := age_of_property;
          in_parking := bool_of_int parking;
          in_lift := bool_of_int lift |} |}.

Definition predict (self : PredictionEngine)
    (location : string) (area_sqft : R) (bhk bathrooms floor total_floors : Z)
    (age_of_property : R) (parking lift : Z) : M (list event) PredictionResult :=
  if negb (is_loaded self) then raise RuntimeError
  else if negb (bool_decide (location ∈ location_classes self)) then raise ValueError
  else
    location_encoded <-
      call_method (label_encoder self) EncoderTransform
        (fun le => le_transform le location) ;;
    let input_df :=
      one_row_frame
        (feature_values location_encoded area_sqft bhk bathrooms floor total_floors
           age_of_property parking lift)
        (features self) in
    input_scaled <-
      call_method (scaler self) ScalerTransform
        (fun sc => scaler_transform sc input_df) ;;
    predicted_price <-
      call_method (model self) ModelPredict
        (fun m => gbr_predict m input_scaled) ;;
    staged_predictions <-
      call_method (model self) ModelStagedPredict
        (fun m => gbr_staged_predict m input_scaled) ;;
    let std_dev := np_std (last_n 20 staged_predictions) in
    confidence_score <- of_result (confidence_score_of predicted_price std_dev) ;;
    ret (result_of self location area_sqft bhk bathrooms floor total_floors
           age_of_property parking lift predicted_price confidence_score).

(** A call of [predict] from a caller: the outcome and the method calls it
    made. *)
Definition run_predict (self : PredictionEngine)
    (location : string) (area_sqft : R) (bhk bathrooms floor total_floors : Z)
    (age_of_property : R) (parking lift : Z) : pyresult PredictionResult * list event :=
  predict self location area_sqft bhk bathrooms floor total_floors
    age_of_property parking lift [].

(** *** [get_locations] and [get_model_info] *)

Record LocationInfo : Type := {
  loc_name : string;
  loc_count : R;
  loc_avg_price : R;
  loc_median_price : R;
  loc_min_price : R;
  loc_max_price : R;
  loc_avg_price_per_sqft : R;
}.

Definition location_info (self : PredictionEngine) (loc : string) : LocationInfo :=
  let stats := get (location_stats self !! loc) ∅ in
  {| loc_name := loc;
     loc_count := get0 stats "count";
     loc_avg_price := get0 stats "mean_price";
     loc_median_price := get0 stats "median_price";
     loc_min_price := get0 stats "min_price";
     loc_max_price := get0 stats "max_price";
     loc_avg_price_per_sqft := get0 stats "avg_price_per_sqft" |}.

Definition get_locations (self : PredictionEngine) : list LocationInfo :=
  map (location_info self) (sorted (location_classes self)).

Record ModelInfo : Type := {
  info_model_type : string;
  info_features : list string;
  info_feature_importance : gmap string R;
  info_metrics : gmap string (gmap string R);
  info_locations_count : nat;
  info_locations : list string;
}.

Definition get_model_info (self : PredictionEngine) : ModelInfo :=
  {| info_model_type := "Gradient Boosting Regressor";
     info_features := features self;
     info_feature_importance := feature_importance self;
     info_metrics := model_metrics self;
     info_locations_count := List.length (location_classes self);
     info_locations := location_classes self |}.

End Predictor.

(** ** [app/schemas/prediction.py]: the request *)

Module Schemas.
Import Py.

Local Open Scope R_scope.

(** A request that has passed validation. *)
Record PredictionRequest : Type := {
  req_location : string;
  req_area_sqft : R;
  req_bhk : Z;
  req_bathrooms : Z;
  req_floor : Z;
  req_total_floors : Z;
  req_age_of_property : R;
  req_parking : bool;
  req_lift : bool;
}.

(** The field validator of [location]: [v.strip().title()]. *)
Definition PredictionRequest_normalize_location (v : string) : string :=
  title (strip v).

End Schemas.

(** ** [app/api/routes.py] and [app/main.py] *)

Module Routes.
Import Py Predictor Schemas.

(** The [detail] of an [HTTPException]: a fixed text, or [str(e)] of the
    exception caught. *)
Inductive detail : Type :=
| Text (s : string)
| StrOf (e : exn).

(** What a route does: it returns a response, or raises [HTTPException]. *)
Inductive outcome (A : Type) : Type :=
| Return (a : A)
| HTTPException (status_code : Z) (d : detail).
Arguments Return {A} a.
Arguments HTTPException {A} status_code d.

Section PredictPrice.

(** The constructor of the response schema applied to the result
    dictionary: it validates the dictionary and may raise (its
    [ValidationError] is a [ValueError]). *)
Context {Response : Type}.
Variable PredictionResponse : PredictionResult -> pyresult Response.

(** [predict_price]: the outcome and the method calls made on the bundle
    objects of the engine. *)
Definition predict_price (engine : PredictionEngine) (request : PredictionRequest)
  : outcome Response * list event :=
  if negb (is_loaded engine) then
    (HTTPException 503 (Text "ML model is not loaded. Please try again later."), [])
  else
    let (result, t) :=
      run_predict engine (req_location request) (req_area_sqft request)
        (req_bhk request) (req_bathrooms request) (req_floor request)
        (req_total_floors request) (req_age_of_property request)
        (int_of_bool (req_parking request)) (int_of_bool (req_lift request)) in
    match bind result PredictionResponse with
    | Ok response => (Return response, t)
    | Raise e =>
        if decide (e = ValueError) then (HTTPException 400 (StrOf e), t)
        else
          (HTTPException 500
             (Text "An error occurred while generating the prediction."), t)
    end.

End PredictPrice.

(** The start-up half of [lifespan] in [main.py]: the model is loaded from
    the configured path, and both [except] clauses only log. *)
Definition lifespan_startup (env : Env) : M PredictionEngine unit :=
  fun engine =>
    let (r, engine') := load_model env (Some (settings_model_path env)) engine in
    (try_except_Exception (try_except r FileNotFoundError (Ok tt)) (Ok tt), engine').

(** [health_check]: the [model_loaded] field of its response. *)
Definition health_check_model_loaded (engine : PredictionEngine) : bool :=
  is_loaded engine.

End Routes.

(** ** Vocabulary of the specification and concrete scenarios *)

Module Spec.
Import Py Preprocessing Predictor.

(** A string made of whitespace only. *)
Definition all_space (s : string) : Prop :=
  Forall (fun c => isspace c = true) (list_ascii_of_string s).

(** A text of ASCII characters only: on these the byte-wise [lower],
    [upper] and [title] are those of Python. *)
Definition ascii_only (s : string) : Prop :=
  Forall (fun c => (code c <? 128)%N = true) (list_ascii_of_string s).


(** The number held by a cell. *)
Definition cell_num (c : cell) : pyfloat :=
  match c with
  | CNum x => x
  | CStr _ => NaN
  end.

(** The derived price per square foot of a row. *)
Definition price_per_sqft_of (r : Row) : pyfloat :=
  match row_get r "actual_price", row_get r "area_sqft" with
  | CNum p, CNum a => fdiv p a
  | _, _ => NaN
  end.

(** Strictly between 2000 and 50000. *)
Definition in_open_band (r : Row) : bool :=
  flt (Finite 2000) (price_per_sqft_of r) && flt (price_per_sqft_of r) (Finite 50000).

(** Within the closed interval from 2000 to 50000. *)
Definition in_closed_band (r : Row) : bool :=
  fle (Finite 2000) (price_per_sqft_of r) && fle (price_per_sqft_of r) (Finite 50000).

(** A frame as it reaches the last stage: both columns exist and hold
    numbers. *)
Definition numeric_frame (df : DataFrame) : Prop :=
  "actual_price"%string ∈ columns df
  /\ "area_sqft"%string ∈ columns df
  /\ Forall (fun r => exists p a,
               row_get r "actual_price" = CNum p /\ row_get r "area_sqft" = CNum a)
            (rows df).

(** [clamp(x, lo, hi)] as the specification writes it. *)
Definition clamp (x lo hi : R) : R := Rmax lo (Rmin hi x).










(** The worlds a program can reach: it starts with no instance, constructs
    the engine any number of times and calls [load_model] on an object that
    exists. *)
Inductive reachable : World -> Prop :=
| reach_initial : reachable initial_world
| reach_construct w : reachable w -> reachable (fst (construct w))
| reach_load w env l path :
    reachable w -> is_Some (heap w !! l) ->
    reachable (snd (load_model_at env l path w)).

(** The identity of the object bound to the module-level name [engine]:
    the one that the first [PredictionEngine()] of the program returns. *)
Definition engine_id : nat := snd (construct initial_world).

(** In a reachable world, either there is no instance and no object, or the
    class attribute names the object [engine_id], which has been
    initialised. *)
Definition instance_ready (w : World) : Prop :=
  match cls_instance w with
  | None => heap w = ∅
  | Some l =>
      l = engine_id
      /\ exists self, heap w !! l = Some self /\ _initialized self = true
  end.

End Spec.

Module Scenario.
Import Py Preprocessing Predictor.

(** Two rows on the boundaries of the band: 1,000,000 / 500 = 2000 and
    25,000,000 / 500 = 50000. *)
Definition boundary_frame : DataFrame :=
  mkDataFrame ["location"; "area_sqft"; "actual_price"]%string
    [ mkRow 0 (list_to_map [ ("location", CStr "Vashi");
                             ("area_sqft", CNum (Finite 500));
                             ("actual_price", CNum (Finite 1000000)) ]%string);
      mkRow 1 (list_to_map [ ("location", CStr "Nerul");
                             ("area_sqft", CNum (Finite 500));
                             ("actual_price", CNum (Finite 25000000)) ]%string) ].

(** A frame with a row inside the band between the two boundary rows. *)
Definition mixed_frame : DataFrame :=
  mkDataFrame ["location"; "area_sqft"; "actual_price"]%string
    [ mkRow 4 (list_to_map [ ("location", CStr "Vashi");
                             ("area_sqft", CNum (Finite 500));
                             ("actual_price", CNum (Finite 1000000)) ]%string);
      mkRow 7 (list_to_map [ ("location", CStr "Panvel");
                             ("area_sqft", CNum (Finite 800));
                             ("actual_price", CNum (Finite 8000000)) ]%string) ].

(** A regressor that answers the same price whatever the row. *)
Definition constant_model (p : R) (staged : list R) : GradientBoostingRegressor :=
  {| gbr_predict := fun _ => Ok p;
     gbr_staged_predict := fun _ => Ok staged |}.

(** A scaler that passes the values through (a missing one as 0). *)
Definition passthrough_scaler : StandardScaler :=
  {| scaler_transform := fun row => Ok (map (fun cv => default 0%R (snd cv)) row) |}.

(** An encoder over given classes: the position of the label, or
    [ValueError] on an unseen label. *)
Fixpoint index_of (s : string) (classes : list string) : option Z :=
  match classes with
  | [] => None
  | c :: rest =>
      if decide (c = s) then Some 0%Z
      else option_map Z.succ (index_of s rest)
  end.

Definition encoder_of (classes : list string) : LabelEncoder :=
  {| le_transform := fun s =>
       match index_of s classes with
       | Some i => Ok i
       | None => Raise ValueError
       end |}.

Definition feature_names : list string :=
  [ "location"; "area_sqft"; "bhk"; "bathrooms"; "floor"; "total_floors";
    "age_of_property"; "parking"; "lift" ]%string.

(** A bundle as [train.py] writes it, for given classes and a constant
    model. *)
Definition full_bundle (classes : list string) (p : R) (staged : list R) : Bundle :=
  {| b_model := Some (Some (constant_model p staged));
     b_scaler := Some (Some passthrough_scaler);
     b_label_encoder := Some (Some (encoder_of classes));
     b_features := Some feature_names;
     b_location_classes := Some classes;
     b_location_stats := Some ∅;
     b_train_metrics := Some ∅;
     b_test_metrics := Some ∅;
     b_feature_importance := Some ∅ |}.

(** The same bundle without its ["scaler"] key. *)
Definition bundle_without_scaler : Bundle :=
  {| b_model := Some (Some (constant_model 9000000 [9000000%R]));
     b_scaler := None;
     b_label_encoder := Some (Some (encoder_of ["Kharghar"%string]));
     b_features := Some feature_names;
     b_location_classes := Some ["Kharghar"%string];
     b_location_stats := Some ∅;
     b_train_metrics := Some ∅;
     b_test_metrics := Some ∅;
     b_feature_importance := Some ∅ |}.

(** A bundle with the five keys that [load_model] indexes and none of the
    four that it reads with [get]. *)
Definition bundle_core_keys_only : Bundle :=
  {| b_model := Some (Some (constant_model 9000000 [9000000%R]));
     b_scaler := Some (Some passthrough_scaler);
     b_label_encoder := Some (Some (encoder_of ["Kharghar"%string]));
     b_features := Some feature_names;
     b_location_classes := Some ["Kharghar"%string];
     b_location_stats := None;
     b_train_metrics := None;
     b_test_metrics := None;
     b_feature_importance := None |}.

Definition env_of (b : Bundle) : Env :=
  {| files := {[ "models/house_price_model.joblib"%string := Dict b ]};
     settings_model_path := "models/house_price_model.joblib" |}.

(** The engine after a successful load of [full_bundle classes p staged]. *)
Definition loaded_engine (classes : list string) (p : R) (staged : list R)
  : PredictionEngine :=
  mkEngine true (Some (constant_model p staged)) (Some passthrough_scaler)
    (Some (encoder_of classes)) feature_names classes ∅
    (<["train"%string := ∅]> (<["test"%string := ∅]> ∅)) ∅.

(** The request of the example in the schema (1000 square feet, 2 BHK,
    2 bathrooms, floor 5 of 20, 5 years old, parking and lift), for a
    given location. *)
Definition request_for (location : string) : Schemas.PredictionRequest :=
  {| Schemas.req_location := location;
     Schemas.req_area_sqft := 1000;
     Schemas.req_bhk := 2;
     Schemas.req_bathrooms := 2;
     Schemas.req_floor := 5;
     Schemas.req_total_floors := 20;
     Schemas.req_age_of_property := 5;
     Schemas.req_parking := true;
     Schemas.req_lift := true |}.

End Scenario.

Import Py Preprocessing Predictor Spec Scenario.

(** Case analysis on the next key of the bundle that the goal inspects. *)
Ltac case_bundle_key :=
  match goal with
  | |- context [getitem (?key ?bundle)] => destruct (key bundle); cbn [getitem]
  end.

(** ** Field cleaners *)

(** [float(str)] raises nothing but [ValueError]. *)
Lemma float_of_chars_raises_ValueError (cs : chars) (e : exn) :
  float_of_chars cs = Raise e -> e = ValueError.
Proof.
  unfold float_of_chars.
  destruct (strip_underscores _ _) as [cs'|]; [|congruence].
  cbv zeta.
  destruct (parse_decimal _); [discriminate|].
  destruct (parse_inf_or_nan _); [discriminate|congruence].
Qed.

Lemma float_of_string_raises_ValueError (s : string) (e : exn) :
  float_of_string s = Raise e -> e = ValueError.
Proof. apply float_of_chars_raises_ValueError. Qed.

(** [clean_price] returns for every raw value. *)
Lemma clean_price_total (v : pyval) : returns (clean_price v).
Proof.
  unfold returns, clean_price.
  destruct (isna v); [eauto|].
  destruct (float_of_string _) as [x|e] eqn:E; simpl.
  - destruct (fle x (Finite 0)); eauto.
  - apply float_of_string_raises_ValueError in E. subst e. simpl. eauto.
Qed.

(** [clean_yes_no] and [normalize_location] return for every raw value. *)
Lemma clean_yes_no_total (v : pyval) : returns (clean_yes_no v).
Proof.
  unfold returns, clean_yes_no.
  destruct (isna v); [eauto|].
  repeat case_bool_decide; eauto.
Qed.

Lemma normalize_location_total (v : pyval) : returns (normalize_location v).
Proof.
  unfold returns, normalize_location.
  destruct (_ || _); eauto.
Qed.

(** [clean_bhk] and [clean_floor] let exactly one exception through: the
    [OverflowError] of [int] on an infinite float. *)
Lemma clean_bhk_raises_only_OverflowError (v : pyval) (e : exn) :
  clean_bhk v = Raise e -> e = OverflowError.
Proof.
  unfold clean_bhk.
  destruct (isna v); [discriminate|].
  destruct (float_of_string _) as [x|e'] eqn:E; simpl.
  - destruct x; simpl; try congruence.
    destruct (_ && _); discriminate.
  - apply float_of_string_raises_ValueError in E. subst e'. simpl. discriminate.
Qed.

Lemma clean_floor_raises_only_OverflowError (v : pyval) (e : exn) :
  clean_floor v = Raise e -> e = OverflowError.
Proof.
  unfold clean_floor.
  destruct (isna v); [discriminate|].
  case_bool_decide; [discriminate|].
  destruct (float_of_string _) as [x|e'] eqn:E; simpl.
  - destruct x; simpl; try congruence.
    destruct (_ && _); discriminate.
  - apply float_of_string_raises_ValueError in E. subst e'. simpl. discriminate.
Qed.

(** C4.  The cleaners are not all total: on the cell ["inf"] (and likewise
    on ["1e999"], which [float] reads as infinity) [clean_bhk] and
    [clean_floor] raise [OverflowError], which their [except ValueError]
    clause does not catch, instead of returning [None]. *)
Theorem clean_bhk_clean_floor_raise_on_inf :
  clean_bhk (VStr "inf") = Raise OverflowError
  /\ clean_floor (VStr "inf") = Raise OverflowError
  /\ clean_bhk (VStr "1e999") = Raise OverflowError
  /\ clean_floor (VStr "1e999") = Raise OverflowError.
Proof. repeat split; vm_compute; reflexivity. Qed.

(** *** [normalize_location] *)

Lemma list_ascii_of_string_app (s t : string) :
  list_ascii_of_string (s +:+ t) = list_ascii_of_string s ++ list_ascii_of_string t.
Proof. induction s as [|c s IH]; simpl; [reflexivity | now rewrite IH]. Qed.



Section Strip.
Variable sp : ascii -> bool.

Lemma lstrip_by_spaces (pre l : chars) :
  Forall (fun c => sp c = true) pre -> lstrip_by sp (pre ++ l) = lstrip_by sp l.
Proof.
  induction 1 as [|c pre Hc _ IH]; simpl; [reflexivity|].
  now rewrite Hc.
Qed.

Lemma lstrip_by_solid (c : ascii) (l : chars) :
  sp c = false -> lstrip_by sp (c :: l) = c :: l.
Proof. intros Hc. simpl. now rewrite Hc. Qed.

Lemma rstrip_by_spaces (l post : chars) :
  Forall (fun c => sp c = true) post -> rstrip_by sp (l ++ post) = rstrip_by sp l.
Proof.
  intros Hpost. unfold rstrip_by. rewrite rev_app_distr.
  now rewrite lstrip_by_spaces by now apply List.Forall_rev.
Qed.

Lemma rstrip_by_solid (l : chars) (c : ascii) :
  sp c = false -> rstrip_by sp (l ++ [c]) = l ++ [c].
Proof.
  intros Hc. unfold rstrip_by. rewrite rev_app_distr. simpl.
  rewrite Hc. simpl. now rewrite rev_involutive.
Qed.

(** Trimming removes the surrounding whitespace and nothing of a text that
    begins and ends with other characters. *)
Lemma strip_by_padded (pre post init : chars) (c0 cl : ascii) (tl : chars) :
  Forall (fun c => sp c = true) pre ->
  Forall (fun c => sp c = true) post ->
  sp c0 = false -> sp cl = false ->
  c0 :: tl = init ++ [cl] ->
  strip_by sp (pre ++ (c0 :: tl) ++ post) = c0 :: tl.
Proof.
  intros Hpre Hpost H0 Hl Heq. unfold strip_by.
  rewrite lstrip_by_spaces by assumption.
  change ((c0 :: tl) ++ post) with (c0 :: (tl ++ post)).
  rewrite lstrip_by_solid by assumption.
  change (c0 :: (tl ++ post)) with ((c0 :: tl) ++ post).
  rewrite rstrip_by_spaces by assumption.
  rewrite Heq. now apply rstrip_by_solid.
Qed.
End Strip.












(** Only the ends are trimmed: whitespace added inside an alias makes the
    text unknown. *)
Lemma normalize_location_inner_whitespace :
  normalize_location (VStr "kopar  khairane") = Ok None.
Proof. vm_compute. reflexivity. Qed.

(** ** The price-per-square-foot filter of [preprocess_dataset] *)

Section Frames.

Lemma mapM_pointwise {A B : Type} (f : A -> pyresult B) (g : A -> B) (l : list A) :
  Forall (fun a => f a = Ok (g a)) l -> mapM f l = Ok (map g l).
Proof.
  induction 1 as [|a l Ha _ IH]; simpl; [reflexivity|].
  now rewrite Ha, IH.
Qed.

Lemma combine_map_same {A B C : Type} (f : A -> B) (g : A -> C) (l : list A) :
  combine (map f l) (map g l) = map (fun a => (f a, g a)) l.
Proof. induction l as [|a l IH]; simpl; [reflexivity | now rewrite IH]. Qed.

Lemma combine_map_r {A B : Type} (g : A -> B) (l : list A) :
  combine l (map g l) = map (fun a => (a, g a)) l.
Proof. induction l as [|a l IH]; simpl; [reflexivity | now rewrite IH]. Qed.

(** Selecting with a mask computed row by row is filtering. *)
Lemma select_by_mask {A : Type} (f : A -> bool) (l : list A) :
  map fst (filter (fun rm : A * bool => snd rm = true) (combine l (map f l)))
  = filter (fun r => f r = true) l.
Proof.
  induction l as [|a l IH]; [reflexivity|].
  simpl. rewrite !filter_cons. simpl.
  destruct (decide (f a = true)); simpl; now rewrite IH.
Qed.

Lemma filter_map_commute {A B : Type} (h : A -> B) (f : B -> bool) (l : list A) :
  filter (fun b => f b = true) (map h l)
  = map h (filter (fun a => f (h a) = true) l).
Proof.
  induction l as [|a l IH]; [reflexivity|].
  simpl. rewrite !filter_cons.
  destruct (decide (f (h a) = true)); simpl; now rewrite IH.
Qed.

Lemma filter_twice {A : Type} (f g : A -> bool) (l : list A) :
  filter (fun a => g a = true) (filter (fun a => f a = true) l)
  = filter (fun a => (f a && g a) = true) l.
Proof.
  induction l as [|a l IH]; [reflexivity|].
  rewrite !filter_cons.
  destruct (f a) eqn:Ef, (g a) eqn:Eg; simpl;
    repeat (rewrite filter_cons, ?Ef, ?Eg; simpl); rewrite IH;
    repeat case_decide; try congruence; reflexivity.
Qed.

Lemma map_cells_imap (f : nat -> Row -> Row) (l : list Row) :
  (forall i r, cells (f i r) = cells r) ->
  map cells (imap f l) = map cells l.
Proof.
  revert f. induction l as [|r l IH]; intros f Hf; [reflexivity|].
  simpl. rewrite Hf, IH; [reflexivity|].
  intros i r'. apply Hf.
Qed.

End Frames.

(** The row with its helper cell, and the value stored in that cell. *)
Lemma ratio_series (rs : list Row) :
  Forall (fun r => exists p a,
            row_get r "actual_price" = CNum p /\ row_get r "area_sqft" = CNum a) rs ->
  series_div (map (fun r => row_get r "actual_price") rs)
             (map (fun r => row_get r "area_sqft") rs)
  = Ok (map (fun r => CNum (price_per_sqft_of r)) rs).
Proof.
  intros Hnum. unfold series_div. rewrite combine_map_same.
  rewrite <- (mapM_pointwise
                (fun r => cell_div (row_get r "actual_price") (row_get r "area_sqft"))).
  - clear Hnum. induction rs as [|r rs IH]; simpl; [reflexivity | now rewrite IH].
  - eapply Forall_impl; [exact Hnum|].
    intros r (p & a & Hp & Ha). unfold price_per_sqft_of. now rewrite Hp, Ha.
Qed.

Lemma assign_ratio_numeric (df : DataFrame) :
  numeric_frame df ->
  assign_ratio df "price_per_sqft" "actual_price" "area_sqft"
  = Ok {| columns := if bool_decide ("price_per_sqft"%string ∈ columns df)
                     then columns df
                     else columns df ++ ["price_per_sqft"%string];
          rows := map (fun r => mkRow (label r)
                                  (<["price_per_sqft"%string :=
                                       CNum (price_per_sqft_of r)]> (cells r)))
                      (rows df) |}.
Proof.
  intros (Hprice & Harea & Hnum).
  unfold assign_ratio, getitem_column.
  rewrite (bool_decide_eq_true_2 _ Hprice), (bool_decide_eq_true_2 _ Harea).
  cbn [bind]. rewrite (ratio_series _ Hnum). cbn [bind].
  unfold setitem_column. rewrite combine_map_r, map_map. reflexivity.
Qed.

Lemma where_gt_numeric (d : DataFrame) (c : string) (k : pyfloat) :
  c ∈ columns d ->
  Forall (fun r => exists x, row_get r c = CNum x) (rows d) ->
  where_gt d c k
  = Ok {| columns := columns d;
          rows := filter (fun r => flt k (cell_num (row_get r c)) = true) (rows d) |}.
Proof.
  intros Hc Hnum. unfold where_gt, getitem_column.
  rewrite (bool_decide_eq_true_2 _ Hc). cbn [bind].
  rewrite (mapM_pointwise _ (fun v => flt k (cell_num v))).
  - cbn [bind]. unfold select_rows. rewrite map_map.
    now rewrite (select_by_mask (fun r => flt k (cell_num (row_get r c)))).
  - apply Forall_forall. intros v Hv. apply list_elem_of_In, in_map_iff in Hv.
    destruct Hv as (r & <- & Hr). rewrite Forall_forall in Hnum.
    destruct (Hnum r) as (x & ->); [now apply list_elem_of_In | reflexivity].
Qed.

Lemma where_lt_numeric (d : DataFrame) (c : string) (k : pyfloat) :
  c ∈ columns d ->
  Forall (fun r => exists x, row_get r c = CNum x) (rows d) ->
  where_lt d c k
  = Ok {| columns := columns d;
          rows := filter (fun r => flt (cell_num (row_get r c)) k = true) (rows d) |}.
Proof.
  intros Hc Hnum. unfold where_lt, getitem_column.
  rewrite (bool_decide_eq_true_2 _ Hc). cbn [bind].
  rewrite (mapM_pointwise _ (fun v => flt (cell_num v) k)).
  - cbn [bind]. unfold select_rows. rewrite map_map.
    now rewrite (select_by_mask (fun r => flt (cell_num (row_get r c)) k)).
  - apply Forall_forall. intros v Hv. apply list_elem_of_In, in_map_iff in Hv.
    destruct Hv as (r & <- & Hr). rewrite Forall_forall in Hnum.
    destruct (Hnum r) as (x & ->); [now apply list_elem_of_In | reflexivity].
Qed.

(** What the last stage returns on a frame whose two columns hold numbers:
    it does return, and the rows it returns are the rows strictly inside
    the band, in their order, without the helper cell. *)
Lemma price_per_sqft_stage (df : DataFrame) :
  numeric_frame df ->
  exists df',
    preprocess_dataset_price_per_sqft df = Ok df'
    /\ columns df' = filter (fun c => c ≠ "price_per_sqft"%string)
                            (if bool_decide ("price_per_sqft"%string ∈ columns df)
                             then columns df
                             else columns df ++ ["price_per_sqft"%string])
    /\ map cells (rows df')
       = map (fun r => delete "price_per_sqft"%string (cells r))
             (filter (fun r => in_open_band r = true) (rows df)).
Proof.
  intros Hdf.
  set (pps := "price_per_sqft"%string).
  set (with_ratio := fun r : Row =>
         mkRow (label r) (<[pps := CNum (price_per_sqft_of r)]> (cells r))).
  set (cols1 := if bool_decide (pps ∈ columns df) then columns df else columns df ++ [pps]).
  assert (Hcols1 : pps ∈ cols1).
  { unfold cols1. case_bool_decide; [assumption|]. apply elem_of_app. right. now left. }
  assert (Hget : forall r, row_get (with_ratio r) pps = CNum (price_per_sqft_of r)).
  { intros r. unfold row_get, with_ratio. simpl. now rewrite lookup_insert_eq. }
  unfold preprocess_dataset_price_per_sqft.
  rewrite (assign_ratio_numeric _ Hdf). fold pps with_ratio cols1. cbn [bind].
  assert (Hnum1 : forall l, Forall (fun r => exists x, row_get r pps = CNum x)
                              (map with_ratio l)).
  { intros l. apply Forall_forall. intros r' Hr'.
    apply list_elem_of_In, in_map_iff in Hr'. destruct Hr' as (r & <- & _).
    rewrite Hget. eauto. }
  rewrite where_gt_numeric by (cbn [columns rows]; auto).
  cbn [columns rows bind].
  rewrite (filter_map_commute with_ratio
             (fun r' => flt (Finite 2000) (cell_num (row_get r' pps)))).
  rewrite where_lt_numeric by (cbn [columns rows]; auto).
  cbn [columns rows bind].
  rewrite (filter_map_commute with_ratio
             (fun r' => flt (cell_num (row_get r' pps)) (Finite 50000))).
  rewrite filter_twice.
  unfold drop_column. cbn [columns rows].
  rewrite (bool_decide_eq_true_2 _ Hcols1). cbn [bind].
  eexists. split; [reflexivity|]. split; [reflexivity|].
  unfold reset_index. cbn [rows].
  rewrite map_cells_imap by reflexivity.
  rewrite !map_map. cbn [cells].
  rewrite (list_filter_iff _ (fun r => in_open_band r = true)).
  - apply map_ext. intros r. unfold with_ratio. cbn [cells].
    apply delete_insert_eq.
  - intros r. rewrite Hget. reflexivity.
Qed.

(** C7 (as amended).  On a frame whose price and area columns hold numbers
    the last stage returns; a row is kept exactly when its price per square
    foot lies strictly between 2000 and 50000, so that a row at exactly 2000
    or exactly 50000 is dropped; the kept rows come in their order with
    their other cells unchanged, and neither the returned columns nor the
    returned rows hold the helper column. *)
Theorem price_per_sqft_filter_open_band (df : DataFrame) :
  numeric_frame df ->
  exists df',
    preprocess_dataset_price_per_sqft df = Ok df'
    /\ map cells (rows df')
       = map (fun r => delete "price_per_sqft"%string (cells r))
             (filter (fun r => in_open_band r = true) (rows df))
    /\ ("price_per_sqft"%string ∉ columns df')
    /\ Forall (fun r => cells r !! "price_per_sqft"%string = None) (rows df').
Proof.
  intros Hdf.
  destruct (price_per_sqft_stage df Hdf) as (df' & Hrun & Hcols & Hrows).
  exists df'. repeat split; try assumption.
  - rewrite Hcols. intros Hin. apply list_elem_of_filter in Hin as [Hne _].
    now apply Hne.
  - apply Forall_forall. intros r Hr.
    assert (Hc : cells r ∈ map cells (rows df')).
    { apply list_elem_of_In, in_map, list_elem_of_In, Hr. }
    rewrite Hrows in Hc. apply list_elem_of_In, in_map_iff in Hc.
    destruct Hc as (r0 & <- & _). apply lookup_delete_eq.
Qed.

Lemma price_per_sqft_filter_open_band_witness :
  exists df',
    preprocess_dataset_price_per_sqft mixed_frame = Ok df'
    /\ map cells (rows df')
       = map (fun r => delete "price_per_sqft"%string (cells r))
             (filter (fun r => in_open_band r = true) (rows mixed_frame))
    /\ ("price_per_sqft"%string ∉ columns df')
    /\ Forall (fun r => cells r !! "price_per_sqft"%string = None) (rows df').
Proof.
  apply (price_per_sqft_filter_open_band mixed_frame).
  unfold numeric_frame, mixed_frame. cbn [columns rows].
  split; [|split].
  - apply list_elem_of_lookup. exists 2%nat. reflexivity.
  - apply list_elem_of_lookup. exists 1%nat. reflexivity.
  - repeat constructor; eexists _, _; split; vm_compute; reflexivity.
Defined.

(** C7 (as stated) fails.  Both rows of [boundary_frame] have a price per
    square foot inside the closed interval (exactly 2000 and exactly 50000),
    and the stage returns no row. *)
Lemma boundary_rows_are_dropped :
  Forall (fun r => in_closed_band r = true) (rows boundary_frame)
  /\ exists df',
       preprocess_dataset_price_per_sqft boundary_frame = Ok df' /\ rows df' = [].
Proof.
  split.
  - unfold boundary_frame. cbn [rows]. repeat constructor.
  - eexists. split; vm_compute; reflexivity.
Qed.

(** ** [load_model] *)


(** [load_model] never touches [_initialized]. *)
Lemma load_model_keeps_initialized (env : Env) (path : option string)
    (self : PredictionEngine) :
  _initialized (snd (load_model env path self)) = _initialized self.
Proof.
  unfold load_model.
  destruct (files env !! _) as [[bundle|e|]|]; try reflexivity.
  unfold mbind, of_result, modify.
  repeat case_bundle_key; reflexivity.
Qed.

(** A load that stops before the first assignment leaves the engine as it
    was: this is the case of a missing file, of a file that cannot be read,
    of an object that is no dictionary and of a bundle without ["model"]. *)
Lemma load_model_missing_file (env : Env) (path : string) (self : PredictionEngine) :
  files env !! path = None ->
  load_model env (Some path) self = (Raise FileNotFoundError, self).
Proof. intros H. unfold load_model. now rewrite H. Qed.

Lemma load_model_unreadable (env : Env) (path : string) (e : exn)
    (self : PredictionEngine) :
  (files env !! path = Some (Unreadable e)
   -> load_model env (Some path) self = (Raise e, self))
  /\ (files env !! path = Some NotSubscriptable
      -> load_model env (Some path) self = (Raise TypeError, self)).
Proof. split; intros H; unfold load_model; now rewrite H. Qed.

Lemma load_model_missing_model (env : Env) (path : string) (bundle : Bundle)
    (self : PredictionEngine) :
  files env !! path = Some (Dict bundle) -> b_model bundle = None ->
  load_model env (Some path) self = (Raise KeyError, self).
Proof. intros H Hm. unfold load_model. rewrite H. unfold mbind, of_result. now rewrite Hm. Qed.

(** A load that fails after the first assignment leaves the engine with a
    model: whatever the state before, [is_loaded] answers [True]. *)
Lemma load_model_partial (env : Env) (path : string) (bundle : Bundle)
    (m : GradientBoostingRegressor) (self : PredictionEngine) :
  files env !! path = Some (Dict bundle) ->
  b_model bundle = Some (Some m) -> b_scaler bundle = None ->
  load_model env (Some path) self = (Raise KeyError, set_model (Some m) self)
  /\ is_loaded (set_model (Some m) self) = true.
Proof.
  intros H Hm Hs. unfold load_model. rewrite H.
  unfold mbind, of_result, modify. rewrite Hm, Hs. split; reflexivity.
Qed.

(** C2.  [load_model] is not atomic.  On a freshly initialised engine, with
    a bundle that holds ["model"] and lacks ["scaler"], the load raises
    [KeyError] after [self.model] has been assigned: the load has failed and
    [is_loaded] reports [True]. *)
Theorem load_model_failure_leaves_engine_loaded :
  is_loaded init_attributes = false
  /\ fst (load_model (env_of bundle_without_scaler) None init_attributes) = Raise KeyError
  /\ is_loaded (snd (load_model (env_of bundle_without_scaler) None init_attributes)) = true.
Proof. repeat split. Qed.

(** C3 (as amended).  With the file in place, the load raises [KeyError]
    when one of ["model"], ["scaler"], ["label_encoder"], ["features"],
    ["location_classes"] is absent; when these five are present it succeeds
    whatever else the bundle holds, an absent ["location_stats"],
    ["train_metrics"], ["test_metrics"] or ["feature_importance"] being
    read as an empty dictionary. *)
Theorem load_model_required_keys (env : Env) (path : string) (bundle : Bundle)
    (self : PredictionEngine) :
  files env !! path = Some (Dict bundle) ->
  ((b_model bundle = None \/ b_scaler bundle = None \/ b_label_encoder bundle = None
    \/ b_features bundle = None \/ b_location_classes bundle = None) ->
   fst (load_model env (Some path) self) = Raise KeyError)
  /\ (forall m sc le fs cs,
        b_model bundle = Some m -> b_scaler bundle = Some sc ->
        b_label_encoder bundle = Some le -> b_features bundle = Some fs ->
        b_location_classes bundle = Some cs ->
        load_model env (Some path) self
        = (Ok tt,
           mkEngine (_initialized self) m sc le fs cs
             (get (b_location_stats bundle) ∅)
             (<["train"%string := get (b_train_metrics bundle) ∅]>
                (<["test"%string := get (b_test_metrics bundle) ∅]> ∅))
             (get (b_feature_importance bundle) ∅))).
Proof.
  intros H. unfold load_model. rewrite H. unfold mbind, of_result, modify.
  split.
  - intros Hmiss.
    repeat case_bundle_key; try reflexivity.
    exfalso. destruct Hmiss as [?|[?|[?|[?|?]]]]; discriminate.
  - intros m sc le fs cs -> -> -> -> ->. reflexivity.
Qed.

Lemma load_model_required_keys_witness :
  fst (load_model (env_of bundle_without_scaler)
         (Some "models/house_price_model.joblib"%string) init_attributes)
  = Raise KeyError
  /\ fst (load_model (env_of (full_bundle ["Kharghar"%string] 9000000 [9000000%R]))
            (Some "models/house_price_model.joblib"%string) init_attributes)
     = Ok tt.
Proof.
  split.
  - apply (load_model_required_keys (env_of bundle_without_scaler)
             "models/house_price_model.joblib" bundle_without_scaler init_attributes).
    + reflexivity.
    + right. left. reflexivity.
  - destruct (load_model_required_keys
                (env_of (full_bundle ["Kharghar"%string] 9000000 [9000000%R]))
                "models/house_price_model.joblib"
                (full_bundle ["Kharghar"%string] 9000000 [9000000%R])
                init_attributes eq_refl) as [_ Hok].
    erewrite Hok; reflexivity.
Defined.

(** C3 (as stated) fails.  A bundle without ["location_stats"],
    ["train_metrics"], ["test_metrics"] and ["feature_importance"] loads:
    the call returns and the engine is loaded. *)
Lemma load_model_accepts_missing_optional_keys :
  b_location_stats bundle_core_keys_only = None
  /\ b_train_metrics bundle_core_keys_only = None
  /\ b_test_metrics bundle_core_keys_only = None
  /\ b_feature_importance bundle_core_keys_only = None
  /\ fst (load_model (env_of bundle_core_keys_only) None init_attributes) = Ok tt
  /\ is_loaded (snd (load_model (env_of bundle_core_keys_only) None init_attributes)) = true.
Proof. repeat split. Qed.

(** ** [predict]: the two guards *)

(** C9.  On an engine that is not loaded, [predict] raises [RuntimeError]
    whatever the request, and it does so before calling any method of a
    bundle object: no [AttributeError] on the absent model can arise. *)
Theorem predict_unloaded_raises_RuntimeError (self : PredictionEngine)
    (location : string) (area_sqft : R) (bhk bathrooms floor total_floors : Z)
    (age_of_property : R) (parking lift : Z) :
  is_loaded self = false ->
  run_predict self location area_sqft bhk bathrooms floor total_floors
    age_of_property parking lift
  = (Raise RuntimeError, []).
Proof.
  intros H. unfold run_predict, predict. rewrite H. reflexivity.
Qed.

Lemma predict_unloaded_raises_RuntimeError_witness :
  run_predict init_attributes "Kharghar" 1000 2 2 5 20 5 1 1
  = (Raise RuntimeError, []).
Proof.
  apply (predict_unloaded_raises_RuntimeError init_attributes). reflexivity.
Defined.

(** C6.  On a loaded engine, a request whose location is not one of the
    elements of [location_classes] makes [predict] raise [ValueError], and
    no method of the encoder, the scaler or the model has been called. *)
Theorem predict_unknown_location_raises_ValueError (self : PredictionEngine)
    (location : string) (area_sqft : R) (bhk bathrooms floor total_floors : Z)
    (age_of_property : R) (parking lift : Z) :
  is_loaded self = true ->
  location ∉ location_classes self ->
  run_predict self location area_sqft bhk bathrooms floor total_floors
    age_of_property parking lift
  = (Raise ValueError, []).
Proof.
  intros Hl Hloc. unfold run_predict, predict. rewrite Hl. simpl.
  rewrite (bool_decide_eq_false_2 _ Hloc). reflexivity.
Qed.

Lemma predict_unknown_location_raises_ValueError_witness :
  run_predict (loaded_engine ["Kharghar"; "Vashi"]%string 9000000 [9000000%R])
    "Nerul" 1000 2 2 5 20 5 1 1
  = (Raise ValueError, []).
Proof.
  apply (predict_unknown_location_raises_ValueError
           (loaded_engine ["Kharghar"; "Vashi"]%string 9000000 [9000000%R])).
  - reflexivity.
  - cbn [loaded_engine location_classes]. intros Hin.
    apply elem_of_cons in Hin as [Hin|Hin]; [discriminate Hin|].
    apply elem_of_cons in Hin as [Hin|Hin]; [discriminate Hin|].
    now apply elem_of_nil in Hin.
Defined.

(** The match is exact: the lower-case spelling of a known location is
    rejected like any other unknown one. *)
Lemma predict_rejects_other_spelling :
  run_predict (loaded_engine ["Kharghar"; "Vashi"]%string 9000000 [9000000%R])
    "kharghar" 1000 2 2 5 20 5 1 1
  = (Raise ValueError, []).
Proof. reflexivity. Qed.

(** ** The singleton *)

Lemma no_instance_initial (w : World) :
  cls_instance w = None -> heap w = ∅ -> w = initial_world.
Proof. destruct w as [c h]. cbn. now intros -> ->. Qed.

Lemma construct_initial_world :
  construct initial_world
  = (mkWorld (Some engine_id) {[ engine_id := init_attributes ]}, engine_id).
Proof.
  unfold engine_id, construct, PredictionEngine_new, PredictionEngine_init.
  cbn [initial_world cls_instance heap snd].
  rewrite lookup_insert_eq. cbn [blank _initialized].
  now rewrite insert_insert_eq.
Qed.

Lemma construct_instance_ready (w : World) :
  instance_ready w -> instance_ready (fst (construct w)).
Proof.
  unfold instance_ready. intros Hw.
  destruct (cls_instance w) as [l|] eqn:E.
  - destruct Hw as (-> & self & Hself & Hini).
    unfold construct, PredictionEngine_new. rewrite E. cbn [fst].
    unfold PredictionEngine_init. rewrite Hself, Hini, E. eauto.
  - assert (Hw0 : w = initial_world) by now apply no_instance_initial.
    rewrite Hw0, construct_initial_world. cbn [fst cls_instance heap].
    split; [reflexivity|]. exists init_attributes.
    now rewrite lookup_singleton_eq.
Qed.

Lemma load_instance_ready (env : Env) (l : nat) (path : option string) (w : World) :
  instance_ready w -> instance_ready (snd (load_model_at env l path w)).
Proof.
  unfold instance_ready, load_model_at. intros Hw.
  destruct (heap w !! l) as [self|] eqn:E; [|exact Hw].
  pose proof (load_model_keeps_initialized env path self) as Hkeep.
  destruct (load_model env path self) as [r self']. cbn [snd cls_instance heap] in *.
  destruct (cls_instance w) as [l'|].
  - destruct Hw as (-> & s0 & Hs0 & Hini). split; [reflexivity|].
    destruct (decide (l = engine_id)) as [->|Hne].
    + exists self'. rewrite lookup_insert_eq. split; [reflexivity|].
      rewrite Hkeep. congruence.
    + exists s0. rewrite lookup_insert_ne by assumption. split; assumption.
  - rewrite Hw, lookup_empty in E. discriminate E.
Qed.

Lemma reachable_instance_ready (w : World) : reachable w -> instance_ready w.
Proof.
  induction 1 as [|w _ IH|w env l path _ IH _].
  - reflexivity.
  - now apply construct_instance_ready.
  - now apply load_instance_ready.
Qed.

(** Every construction returns [engine_id]; once the instance exists,
    constructing is the identity on the world. *)
Lemma construct_returns_engine (w : World) :
  instance_ready w -> snd (construct w) = engine_id.
Proof.
  unfold instance_ready. intros Hw.
  destruct (cls_instance w) as [l|] eqn:E.
  - destruct Hw as (-> & _). unfold construct, PredictionEngine_new. now rewrite E.
  - assert (Hw0 : w = initial_world) by now apply no_instance_initial.
    now rewrite Hw0, construct_initial_world.
Qed.

Lemma construct_again (w : World) (l : nat) :
  instance_ready w -> cls_instance w = Some l -> construct w = (w, l).
Proof.
  unfold instance_ready. intros Hw Hl. rewrite Hl in Hw.
  destruct Hw as (_ & self & Hself & Hini).
  unfold construct, PredictionEngine_new. rewrite Hl.
  unfold PredictionEngine_init. now rewrite Hself, Hini.
Qed.

Lemma construct_sets_instance (w : World) :
  cls_instance (fst (construct w)) = Some (snd (construct w)).
Proof.
  unfold construct, PredictionEngine_new.
  destruct (cls_instance w) as [l|] eqn:E; cbn [fst snd].
  - unfold PredictionEngine_init. destruct (heap w !! l) as [self|]; [|assumption].
    destruct (_initialized self); assumption.
  - unfold PredictionEngine_init. cbn [heap]. rewrite lookup_insert_eq. reflexivity.
Qed.

(** A load that returns has read a dictionary with the five indexed keys
    and has assigned every attribute from it. *)
Lemma load_model_success_inv (env : Env) (path : option string)
    (self self' : PredictionEngine) :
  load_model env path self = (Ok tt, self') ->
  exists bundle,
    files env !! default (settings_model_path env) path = Some (Dict bundle)
    /\ b_model bundle = Some (model self')
    /\ b_scaler bundle = Some (scaler self')
    /\ b_label_encoder bundle = Some (label_encoder self')
    /\ b_features bundle = Some (features self')
    /\ b_location_classes bundle = Some (location_classes self')
    /\ location_stats self' = get (b_location_stats bundle) ∅
    /\ model_metrics self'
       = <["train"%string := get (b_train_metrics bundle) ∅]>
           (<["test"%string := get (b_test_metrics bundle) ∅]> ∅)
    /\ feature_importance self' = get (b_feature_importance bundle) ∅
    /\ _initialized self' = _initialized self.
Proof.
  unfold load_model.
  replace (match path with Some p => p | None => settings_model_path env end)
    with (default (settings_model_path env) path) by now destruct path.
  destruct (files env !! _) as [[bundle|e|]|]; try discriminate.
  unfold mbind, of_result, modify, raise.
  destruct (b_model bundle) as [m|] eqn:Em; cbn [getitem]; [|discriminate].
  destruct (b_scaler bundle) as [sc|] eqn:Es; cbn [getitem]; [|discriminate].
  destruct (b_label_encoder bundle) as [le|] eqn:El; cbn [getitem]; [|discriminate].
  destruct (b_features bundle) as [fs|] eqn:Ef; cbn [getitem]; [|discriminate].
  destruct (b_location_classes bundle) as [cs|] eqn:Ec; cbn [getitem]; [|discriminate].
  intros [= <-]. exists bundle. rewrite Em, Es, El, Ef, Ec. repeat split.
Qed.

(** C10.  In every reachable world, [PredictionEngine()] returns one and the
    same object, the one bound to [engine]: after the call that object
    exists and is initialised, and a further call returns it and changes
    nothing.  After a [load_model] on that object has succeeded, the object
    holds under every attribute what the bundle holds under the key, and a
    further [PredictionEngine()] returns the same object and leaves the
    world as it is, so the object still holds all of it. *)
Theorem PredictionEngine_is_singleton (w : World) :
  reachable w ->
  let w1 := fst (construct w) in
  snd (construct w) = engine_id
  /\ (exists self1, heap w1 !! engine_id = Some self1 /\ _initialized self1 = true)
  /\ construct w1 = (w1, engine_id)
  /\ forall env path w2,
       load_model_at env engine_id path w1 = (Ok tt, w2) ->
       exists bundle self2,
         files env !! default (settings_model_path env) path = Some (Dict bundle)
         /\ heap w2 !! engine_id = Some self2
         /\ b_model bundle = Some (model self2)
         /\ b_scaler bundle = Some (scaler self2)
         /\ b_label_encoder bundle = Some (label_encoder self2)
         /\ b_features bundle = Some (features self2)
         /\ b_location_classes bundle = Some (location_classes self2)
         /\ location_stats self2 = get (b_location_stats bundle) ∅
         /\ model_metrics self2
            = <["train"%string := get (b_train_metrics bundle) ∅]>
                (<["test"%string := get (b_test_metrics bundle) ∅]> ∅)
         /\ feature_importance self2 = get (b_feature_importance bundle) ∅
         /\ _initialized self2 = true
         /\ construct w2 = (w2, engine_id)
         /\ heap (fst (construct w2)) !! engine_id = Some self2.
Proof.
  intros Hr w1.
  assert (Hid : snd (construct w) = engine_id).
  { apply construct_returns_engine. now apply reachable_instance_ready. }
  assert (Hw1 : reachable w1) by now apply reach_construct.
  assert (Hl1 : cls_instance w1 = Some engine_id).
  { rewrite <- Hid. apply construct_sets_instance. }
  pose proof (reachable_instance_ready w1 Hw1) as Hready.
  unfold instance_ready in Hready. rewrite Hl1 in Hready.
  destruct Hready as (_ & self1 & Hs1 & Hini1).
  split; [exact Hid|]. split; [now exists self1|]. split.
  - apply construct_again; [now apply reachable_instance_ready | exact Hl1].
  - intros env path w2 Hload.
    assert (Hw2 : reachable w2).
    { replace w2 with (snd (load_model_at env engine_id path w1)) by now rewrite Hload.
      apply reach_load; eauto. }
    unfold load_model_at in Hload. rewrite Hs1 in Hload.
    destruct (load_model env path self1) as [r self2] eqn:Hlm.
    injection Hload as -> <-.
    set (w2 := mkWorld (cls_instance w1) (<[engine_id := self2]> (heap w1))) in *.
    assert (Hc : construct w2 = (w2, engine_id)).
    { apply construct_again; [now apply reachable_instance_ready | exact Hl1]. }
    destruct (load_model_success_inv env path self1 self2 Hlm)
      as (bundle & Hfile & Hm & Hsc & Hle & Hfs & Hcs & Hst & Hmm & Hfi & Hini).
    exists bundle, self2. rewrite Hc. cbn [fst]. unfold w2. cbn [heap].
    rewrite lookup_insert_eq.
    repeat (split; [assumption || reflexivity || congruence|]). reflexivity.
Qed.

Lemma PredictionEngine_is_singleton_witness :
  let w1 := fst (construct initial_world) in
  let env := env_of (full_bundle ["Kharghar"%string] 9000000 [9000000%R]) in
  let self2 := loaded_engine ["Kharghar"%string] 9000000 [9000000%R] in
  let w2 := mkWorld (Some engine_id) (<[engine_id := self2]> (heap w1)) in
  snd (construct initial_world) = engine_id
  /\ heap w1 !! engine_id = Some init_attributes
  /\ load_model_at env engine_id None w1 = (Ok tt, w2)
  /\ heap w2 !! engine_id = Some self2
  /\ is_loaded self2 = true
  /\ construct w2 = (w2, engine_id)
  /\ heap (fst (construct w2)) !! engine_id = Some self2.
Proof.
  intros w1 env self2 w2.
  destruct (PredictionEngine_is_singleton initial_world reach_initial)
    as (Hid & _ & _ & Hafter).
  assert (Hw1 : w1 = mkWorld (Some engine_id) {[ engine_id := init_attributes ]}).
  { unfold w1. now rewrite construct_initial_world. }
  assert (Hload : load_model_at env engine_id None w1 = (Ok tt, w2)).
  { unfold w2. rewrite Hw1. unfold load_model_at. cbn [heap cls_instance].
    rewrite lookup_singleton_eq. reflexivity. }
  destruct (Hafter env None w2 Hload) as (bundle & s2 & _ & Hs2 & Hrest).
  assert (Hself : heap w2 !! engine_id = Some self2).
  { unfold w2. cbn [heap]. apply lookup_insert_eq. }
  assert (Heq : s2 = self2) by congruence. subst s2.
  split; [exact Hid|]. split; [rewrite Hw1; apply lookup_singleton_eq|].
  split; [exact Hload|]. split; [exact Hself|]. split; [reflexivity|].
  destruct Hrest as (_ & _ & _ & _ & _ & _ & _ & _ & _ & Hc & Hkeep).
  split; [exact Hc | exact Hkeep].
Defined.

(** ** [predict]: confidence, margin and price range *)

Local Open Scope R_scope.

Section Rounding.

(** The rounded value is within one half of the argument. *)
Lemma round_half_even_near (x : R) :
  IZR (round_half_even x) - 1 / 2 <= x <= IZR (round_half_even x) + 1 / 2.
Proof.
  unfold round_half_even. pose proof (Zfloor_bound x) as [Hlo Hhi].
  destruct (Rlt_dec _ _); [lra|].
  destruct (Rlt_dec _ _); [rewrite plus_IZR; lra|].
  destruct (Z.even _); [lra | rewrite plus_IZR; lra].
Qed.

Lemma round_half_even_unique (x : R) (z : Z) :
  IZR z - 1 / 2 < x < IZR z + 1 / 2 -> round_half_even x = z.
Proof.
  intros Hx. pose proof (round_half_even_near x) as Hn.
  assert (H1 : IZR (round_half_even x - z) < IZR 1) by (rewrite minus_IZR; lra).
  assert (H2 : IZR (-1) < IZR (round_half_even x - z)) by (rewrite minus_IZR; lra).
  apply lt_IZR in H1, H2. lia.
Qed.

Lemma round_half_even_lt (a b : R) :
  a + 1 < b -> IZR (round_half_even a) < IZR (round_half_even b).
Proof.
  intros Hab. pose proof (round_half_even_near a). pose proof (round_half_even_near b).
  lra.
Qed.



Lemma py_round_0 (x : R) : py_round x 0 = IZR (round_half_even x).
Proof.
  unfold py_round. simpl pow. rewrite Rmult_1_r. unfold Rdiv.
  now rewrite Rinv_1, Rmult_1_r.
Qed.

End Rounding.

Section Confidence.

Lemma py_clamp_bounds (o : option R) : 0.5 <= py_max 0.5 (py_min 1.0 o) <= 1.
Proof.
  unfold py_max, py_min. destruct o as [x|].
  - destruct (Rlt_dec x 1.0); destruct (Rlt_dec 0.5 _); lra.
  - destruct (Rlt_dec 0.5 1.0); lra.
Qed.

(** The nested [max] and [min] of line 174 are the clamp. *)
Lemma py_clamp_eq (x : R) : py_max 0.5 (py_min 1.0 (Some x)) = clamp x 0.5 1.0.
Proof.
  unfold py_max, py_min, clamp, Rmax, Rmin.
  destruct (Rlt_dec x 1.0); destruct (Rle_dec 1.0 x); try lra;
    destruct (Rlt_dec 0.5 _); destruct (Rle_dec 0.5 _); lra.
Qed.

Lemma margin_of_bounds (c : R) : 0.5 <= c <= 1 -> 0.08 <= margin_of c <= 0.12.
Proof. unfold margin_of. lra. Qed.

(** The margin never exceeds a tenth: it is 0.10 at the floor of the
    score. *)
Lemma margin_of_at_most_tenth (c : R) : 0.5 <= c <= 1 -> margin_of c <= 0.10.
Proof. unfold margin_of. lra. Qed.

Lemma np_std_nonneg (xs : list R) (sd : R) : np_std xs = Some sd -> 0 <= sd.
Proof.
  destruct xs; [discriminate|]. intros [= <-]. apply sqrt_pos.
Qed.

Lemma confidence_score_of_inv (p : R) (o : option R) (c : R) :
  confidence_score_of p o = Ok c ->
  p <> 0 /\ c = py_max 0.5 (py_min 1.0 ((fun sd => 1.0 - sd / (p * 0.15)) <$> o)).
Proof.
  unfold confidence_score_of. destruct (Req_dec_T _ _) as [E|E]; [discriminate|].
  intros [= <-]. split; [|reflexivity]. intros ->. apply E. lra.
Qed.

Lemma confidence_score_of_nonzero (p : R) (o : option R) :
  p <> 0 ->
  confidence_score_of p o
  = Ok (py_max 0.5 (py_min 1.0 ((fun sd => 1.0 - sd / (p * 0.15)) <$> o))).
Proof.
  intros Hp. unfold confidence_score_of.
  destruct (Req_dec_T _ _) as [E|E]; [|reflexivity]. exfalso. lra.
Qed.


End Confidence.

Section Predict.

Variable self : PredictionEngine.
Variables (location : string) (area_sqft : R) (bhk bathrooms floor total_floors : Z).
Variables (age_of_property : R) (parking lift : Z).

(** When every bundle object answers, [predict] makes the four method
    calls and its outcome is decided by line 174: the result built from
    the point prediction and the confidence score, or the exception of
    the division. *)
Lemma predict_outcome (m : GradientBoostingRegressor) (le : LabelEncoder)
    (sc : StandardScaler) (code : Z) (x : list R) (p : R) (staged : list R) :
  model self = Some m -> label_encoder self = Some le -> scaler self = Some sc ->
  location ∈ location_classes self ->
  le_transform le location = Ok code ->
  scaler_transform sc
    (one_row_frame
       (feature_values code area_sqft bhk bathrooms floor total_floors
          age_of_property parking lift) (features self)) = Ok x ->
  gbr_predict m x = Ok p ->
  gbr_staged_predict m x = Ok staged ->
  run_predict self location area_sqft bhk bathrooms floor total_floors
    age_of_property parking lift
  = (match confidence_score_of p (np_std (last_n 20 staged)) with
     | Ok c => Ok (result_of self location area_sqft bhk bathrooms floor
                     total_floors age_of_property parking lift p c)
     | Raise e => Raise e
     end,
     [EncoderTransform; ScalerTransform; ModelPredict; ModelStagedPredict]).
Proof.
  intros Hm Hle Hsc Hloc Hcode Hx Hp Hst.
  unfold run_predict, predict, is_loaded. rewrite Hm. cbn [negb].
  rewrite (bool_decide_eq_true_2 _ Hloc). cbn [negb].
  unfold mbind, call_method, of_result, ret.
  rewrite Hle, Hcode, Hsc, Hx, Hp, Hst.
  destruct (confidence_score_of _ _); reflexivity.
Qed.

Lemma predict_success (m : GradientBoostingRegressor) (le : LabelEncoder)
    (sc : StandardScaler) (code : Z) (x : list R) (p : R) (staged : list R) (c : R) :
  model self = Some m -> label_encoder self = Some le -> scaler self = Some sc ->
  location ∈ location_classes self ->
  le_transform le location = Ok code ->
  scaler_transform sc
    (one_row_frame
       (feature_values code area_sqft bhk bathrooms floor total_floors
          age_of_property parking lift) (features self)) = Ok x ->
  gbr_predict m x = Ok p ->
  gbr_staged_predict m x = Ok staged ->
  confidence_score_of p (np_std (last_n 20 staged)) = Ok c ->
  run_predict self location area_sqft bhk bathrooms floor total_floors
    age_of_property parking lift
  = (Ok (result_of self location area_sqft bhk bathrooms floor total_floors
           age_of_property parking lift p c),
     [EncoderTransform; ScalerTransform; ModelPredict; ModelStagedPredict]).
Proof.
  intros Hm Hle Hsc Hloc Hcode Hx Hp Hst Hc.
  rewrite (predict_outcome m le sc code x p staged) by assumption.
  now rewrite Hc.
Qed.

(** Conversely, a result comes from such a run. *)
Lemma predict_inversion (res : PredictionResult) (t : list event) :
  run_predict self location area_sqft bhk bathrooms floor total_floors
    age_of_property parking lift = (Ok res, t) ->
  exists m x p staged c,
    model self = Some m
    /\ gbr_predict m x = Ok p
    /\ gbr_staged_predict m x = Ok staged
    /\ confidence_score_of p (np_std (last_n 20 staged)) = Ok c
    /\ res = result_of self location area_sqft bhk bathrooms floor total_floors
               age_of_property parking lift p c.
Proof.
  unfold run_predict, predict, is_loaded.
  destruct (model self) as [m|] eqn:Hm; cbn [negb]; [|discriminate].
  destruct (bool_decide _); cbn [negb]; [|discriminate].
  unfold mbind, call_method, of_result, ret, raise.
  destruct (label_encoder self) as [le|]; [|discriminate].
  destruct (le_transform le location) as [code|]; [|discriminate].
  destruct (scaler self) as [sc|]; [|discriminate].
  destruct (scaler_transform sc _) as [x|]; [|discriminate].
  destruct (gbr_predict m x) as [p|] eqn:Hp; [|discriminate].
  destruct (gbr_staged_predict m x) as [staged|] eqn:Hst; [|discriminate].
  destruct (confidence_score_of p _) as [c|] eqn:Hc; [|discriminate].
  intros [= <- _]. exists m, x, p, staged, c. repeat split; assumption.
Qed.

End Predict.






(** The scenario engines answer every call. *)
Lemma loaded_engine_runs (classes : list string) (p : R) (staged : list R)
    (location : string) (area_sqft : R) (bhk bathrooms floor total_floors : Z)
    (age_of_property : R) (parking lift : Z) (code : Z) (c : R) :
  location ∈ classes ->
  index_of location classes = Some code ->
  confidence_score_of p (np_std (last_n 20 staged)) = Ok c ->
  exists t,
    run_predict (loaded_engine classes p staged) location area_sqft bhk bathrooms
      floor total_floors age_of_property parking lift
    = (Ok (result_of (loaded_engine classes p staged) location area_sqft bhk
             bathrooms floor total_floors age_of_property parking lift p c), t).
Proof.
  intros Hin Hidx Hc. eexists.
  eapply (predict_success (loaded_engine classes p staged));
    try reflexivity; try eassumption.
  cbn [loaded_engine label_encoder encoder_of le_transform]. now rewrite Hidx.
Qed.




(** C5 (as amended).  The scenario request on an engine that knows
    ["Kharghar"] and whose encoder, scaler and model answer, the point
    prediction [p] being above 12.5: [predict] returns, the returned range
    strictly encloses the returned price, and the returned price per square
    foot is [p / 1000] rounded, [p] being the prediction before rounding. *)
Theorem predict_kharghar_scenario (self : PredictionEngine)
    (m : GradientBoostingRegressor) (le : LabelEncoder) (sc : StandardScaler)
    (code : Z) (x : list R) (p : R) (staged : list R) :
  model self = Some m -> label_encoder self = Some le -> scaler self = Some sc ->
  "Kharghar"%string ∈ location_classes self ->
  le_transform le "Kharghar" = Ok code ->
  scaler_transform sc
    (one_row_frame (feature_values code 1000 2 2 5 20 5 1 1) (features self)) = Ok x ->
  gbr_predict m x = Ok p ->
  gbr_staged_predict m x = Ok staged ->
  12.5 < p ->
  exists res t,
    run_predict self "Kharghar" 1000 2 2 5 20 5 1 1 = (Ok res, t)
    /\ low (res_price_range res) < res_predicted_price res < high (res_price_range res)
    /\ res_price_per_sqft res = py_round (p / 1000) 0.
Proof.
  intros Hm Hle Hsc Hloc Hcode Hx Hp Hst Hbig.
  assert (Hp0 : p <> 0) by lra.
  pose proof (confidence_score_of_nonzero p (np_std (last_n 20 staged)) Hp0) as Hc.
  set (c := py_max 0.5 (py_min 1.0 _)) in Hc.
  assert (Hb : 0.5 <= c <= 1) by apply py_clamp_bounds.
  pose proof (margin_of_bounds c Hb) as Hmg.
  eexists _, _. split; [|split].
  - eapply predict_success; eassumption.
  - cbn [result_of res_price_range res_predicted_price low high].
    rewrite !py_round_0.
    assert (Hprod : 1 < p * margin_of c) by nra.
    split; apply round_half_even_lt; lra.
  - cbn [result_of res_price_per_sqft].
    destruct (Rlt_dec 0 1000) as [_|Hn]; [reflexivity | exfalso; lra].
Qed.

Lemma predict_kharghar_scenario_witness :
  exists res t,
    run_predict (loaded_engine ["Kharghar"%string] 9000000 [8900000; 9100000])
      "Kharghar" 1000 2 2 5 20 5 1 1 = (Ok res, t)
    /\ low (res_price_range res) < res_predicted_price res < high (res_price_range res)
    /\ res_price_per_sqft res = py_round (9000000 / 1000) 0.
Proof.
  eapply (predict_kharghar_scenario
            (loaded_engine ["Kharghar"%string] 9000000 [8900000; 9100000]));
    try reflexivity.
  - now left.
  - lra.
Defined.

(** A single staged value has no dispersion. *)
Lemma np_std_singleton (v : R) : np_std [v] = Some 0.
Proof.
  unfold np_std, mean. cbn [map fold_right List.length INR]. f_equal.
  replace ((v - (v + 0) / 1) ^ 2 + 0) with 0 by (simpl; lra).
  unfold Rdiv. rewrite Rmult_0_l. apply sqrt_0.
Qed.

(** C5 (as stated) fails.  With a bundle for the single location
    ["Kharghar"] whose model answers the price 1 at every stage, the
    scenario request is served, and the returned bounds equal the returned
    price: 0.92 and 1.08 both round to 1. *)
Lemma predict_kharghar_range_collapses :
  exists res t,
    run_predict (loaded_engine ["Kharghar"%string] 1 [1]) "Kharghar" 1000 2 2 5 20 5 1 1
    = (Ok res, t)
    /\ low (res_price_range res) = 1
    /\ res_predicted_price res = 1
    /\ high (res_price_range res) = 1
    /\ ~ (low (res_price_range res) < res_predicted_price res
          < high (res_price_range res)).
Proof.
  assert (Hc : confidence_score_of 1 (np_std (last_n 20 [1])) = Ok 1).
  { cbn [last_n List.length Nat.sub skipn]. rewrite np_std_singleton.
    rewrite confidence_score_of_nonzero by lra.
    cbn [fmap option_fmap option_map]. rewrite py_clamp_eq.
    unfold clamp, Rmin, Rmax. f_equal.
    destruct (Rle_dec 1.0 _); destruct (Rle_dec 0.5 _); lra. }
  destruct (loaded_engine_runs ["Kharghar"%string] 1 [1]
              "Kharghar" 1000 2 2 5 20 5 1 1 0 1 ltac:(now left) eq_refl Hc) as [t Ht].
  eexists _, t. split; [exact Ht|].
  cbn [result_of res_price_range res_predicted_price low high].
  rewrite !py_round_0.
  assert (Hlow : round_half_even (1 * (1 - margin_of 1)) = 1%Z).
  { apply round_half_even_unique. unfold margin_of. lra. }
  assert (Hmid : round_half_even 1 = 1%Z).
  { apply round_half_even_unique. lra. }
  assert (Hhigh : round_half_even (1 * (1 + margin_of 1)) = 1%Z).
  { apply round_half_even_unique. unfold margin_of. lra. }
  rewrite Hlow, Hmid, Hhigh. repeat split; lra.
Qed.

(** A point prediction of zero makes [predict] raise. *)
Lemma predict_zero_price_raises :
  fst (run_predict (loaded_engine ["Kharghar"%string] 0 [0])
         "Kharghar" 1000 2 2 5 20 5 1 1)
  = Raise ZeroDivisionError.
Proof.
  erewrite (predict_outcome (loaded_engine ["Kharghar"%string] 0 [0]));
    try reflexivity; [|now left].
  cbn [fst]. unfold confidence_score_of.
  destruct (Req_dec_T (0 * 0.15) 0) as [_|Hne]; [reflexivity | exfalso; lra].
Qed.

(** The returned price per square foot is computed from the prediction
    before rounding: with the point prediction 12345499.6 it is 12345,
    while the returned price, 12345500, divided by the area rounds to
    12346. *)
Lemma price_per_sqft_uses_unrounded_price :
  exists res t,
    run_predict (loaded_engine ["Kharghar"%string] 12345499.6 [12345499.6])
      "Kharghar" 1000 2 2 5 20 5 1 1 = (Ok res, t)
    /\ res_predicted_price res = 12345500
    /\ res_price_per_sqft res = 12345
    /\ py_round (res_predicted_price res / 1000) 0 = 12346.
Proof.
  destruct (loaded_engine_runs ["Kharghar"%string] 12345499.6 [12345499.6]
              "Kharghar" 1000 2 2 5 20 5 1 1 0 _ ltac:(now left) eq_refl
              (confidence_score_of_nonzero 12345499.6 _ ltac:(lra))) as [t Ht].
  eexists _, t. split; [exact Ht|].
  cbn [result_of res_predicted_price res_price_per_sqft].
  destruct (Rlt_dec 0 1000) as [_|Hn]; [|exfalso; lra].
  rewrite !py_round_0.
  assert (Hprice : round_half_even 12345499.6 = 12345500%Z).
  { apply round_half_even_unique. lra. }
  assert (Hpps : round_half_even (12345499.6 / 1000) = 12345%Z).
  { apply round_half_even_unique. lra. }
  assert (Htie : round_half_even (12345500 / 1000) = 12346%Z).
  { unfold round_half_even.
    rewrite (Zfloor_eq 12345) by lra.
    destruct (Rlt_dec _ _); [exfalso; lra|].
    destruct (Rlt_dec _ _); [exfalso; lra|]. reflexivity. }
  rewrite Hprice, Hpps, Htie. repeat split; reflexivity.
Qed.

(** [np.std] divides by the number of values: the deviation of 1 and 3 from
    their mean 2 is 1. *)
Lemma np_std_two_values : np_std [1; 3] = Some 1.
Proof.
  unfold np_std, mean. cbn [map fold_right List.length INR]. f_equal.
  replace (((1 - (1 + (3 + 0)) / (1 + 1)) ^ 2
            + ((3 - (1 + (3 + 0)) / (1 + 1)) ^ 2 + 0)) / (1 + 1)) with 1
    by (simpl; lra).
  apply sqrt_1.
Qed.

(** * Further properties of the code *)

Import Schemas Routes.

Local Close Scope R_scope.

(** ** The cleaners *)

(** X1.  The names that [normalize_location] returns are the valid locations,
    and each of them is normalised to itself. *)
Theorem normalize_location_canonical :
  (forall (v : pyval) (c : string),
      normalize_location v = Ok (Some c) ->
      c ∈ VALID_LOCATIONS /\ normalize_location (VStr c) = Ok (Some c))
  /\ (forall c : string,
         c ∈ VALID_LOCATIONS -> normalize_location (VStr c) = Ok (Some c)).
Proof.
  split.
  - intros v c. unfold normalize_location.
    destruct (_ || _); [discriminate|]. intros [= H].
    unfold LOCATION_ALIASES in H. apply elem_of_list_to_map_2 in H.
    repeat (apply elem_of_cons in H as [H|H];
            [ inversion H; subst; clear H; split;
              [ unfold VALID_LOCATIONS; apply list_elem_of_In; simpl; tauto
              | vm_compute; reflexivity ] | ]).
    now apply elem_of_nil in H.
  - intros c H. unfold VALID_LOCATIONS in H.
    repeat (apply elem_of_cons in H as [->|H]; [vm_compute; reflexivity|]).
    now apply elem_of_nil in H.
Qed.

Lemma normalize_location_canonical_witness :
  "Kopar Khairane"%string ∈ VALID_LOCATIONS
  /\ normalize_location (VStr "Kopar Khairane") = Ok (Some "Kopar Khairane"%string).
Proof.
  destruct normalize_location_canonical as [Hrange _].
  apply (Hrange (VStr " KOPAR khairane  ")). vm_compute. reflexivity.
Defined.

Section StripMore.
Variable sp : ascii -> bool.

Lemma lstrip_by_all_space (l : chars) :
  Forall (fun c => sp c = true) l -> lstrip_by sp l = [].
Proof. induction 1 as [|c l Hc _ IH]; simpl; [reflexivity | now rewrite Hc]. Qed.

Lemma lstrip_by_app (l post : chars) :
  lstrip_by sp (l ++ post)
  = match lstrip_by sp l with
    | [] => lstrip_by sp post
    | c :: r => (c :: r) ++ post
    end.
Proof.
  induction l as [|c l IH]; simpl; [now destruct (lstrip_by sp post)|].
  destruct (sp c); [exact IH | reflexivity].
Qed.

(** Whitespace around a text does not change what trimming returns. *)
Lemma strip_by_pad (pre s post : chars) :
  Forall (fun c => sp c = true) pre ->
  Forall (fun c => sp c = true) post ->
  strip_by sp (pre ++ s ++ post) = strip_by sp s.
Proof.
  intros Hpre Hpost. unfold strip_by.
  rewrite lstrip_by_spaces by assumption. rewrite lstrip_by_app.
  destruct (lstrip_by sp s) as [|c r].
  - now rewrite lstrip_by_all_space.
  - now apply rstrip_by_spaces.
Qed.

(** Trimming commutes with a character map that keeps whitespace apart. *)
Lemma lstrip_by_map (g : ascii -> ascii) (l : chars) :
  (forall c, sp (g c) = sp c) -> lstrip_by sp (map g l) = map g (lstrip_by sp l).
Proof.
  intros Hg. induction l as [|c l IH]; simpl; [reflexivity|].
  rewrite Hg. destruct (sp c); [exact IH | reflexivity].
Qed.

Lemma strip_by_map (g : ascii -> ascii) (l : chars) :
  (forall c, sp (g c) = sp c) -> strip_by sp (map g l) = map g (strip_by sp l).
Proof.
  intros Hg. unfold strip_by, rstrip_by.
  rewrite lstrip_by_map by assumption.
  rewrite <- map_rev, lstrip_by_map by assumption. now rewrite map_rev.
Qed.

End StripMore.

Lemma strip_pad (pre s post : string) :
  all_space pre -> all_space post -> strip (pre +:+ s +:+ post) = strip s.
Proof.
  intros Hpre Hpost. unfold strip.
  now rewrite !list_ascii_of_string_app, strip_by_pad.
Qed.

(** X2.  Every cleaner trims its text first: whitespace added before or after a
    cell changes nothing. *)
Theorem cleaners_ignore_padding (pre s post : string) :
  all_space pre -> all_space post ->
  normalize_location (VStr (pre +:+ s +:+ post)) = normalize_location (VStr s)
  /\ clean_price (VStr (pre +:+ s +:+ post)) = clean_price (VStr s)
  /\ clean_bhk (VStr (pre +:+ s +:+ post)) = clean_bhk (VStr s)
  /\ clean_floor (VStr (pre +:+ s +:+ post)) = clean_floor (VStr s)
  /\ clean_yes_no (VStr (pre +:+ s +:+ post)) = clean_yes_no (VStr s).
Proof.
  intros Hpre Hpost. pose proof (strip_pad pre s post Hpre Hpost) as Hs.
  unfold normalize_location, clean_price, clean_bhk, clean_floor, clean_yes_no.
  cbn [isna str orb]. rewrite Hs. repeat split; reflexivity.
Qed.

Lemma cleaners_ignore_padding_witness :
  normalize_location (VStr ("  " +:+ "vashi" +:+ " ")) = normalize_location (VStr "vashi")
  /\ clean_price (VStr ("  " +:+ "vashi" +:+ " ")) = clean_price (VStr "vashi")
  /\ clean_bhk (VStr ("  " +:+ "vashi" +:+ " ")) = clean_bhk (VStr "vashi")
  /\ clean_floor (VStr ("  " +:+ "vashi" +:+ " ")) = clean_floor (VStr "vashi")
  /\ clean_yes_no (VStr ("  " +:+ "vashi" +:+ " ")) = clean_yes_no (VStr "vashi").
Proof.
  apply (cleaners_ignore_padding "  " "vashi" " ");
    unfold all_space; simpl; repeat constructor.
Defined.

Lemma isspace_lower_char (c : ascii) : isspace (lower_char c) = isspace c.
Proof. destruct c as [[] [] [] [] [] [] [] []]; reflexivity. Qed.

Lemma isspace_upper_char_eq (c : ascii) : isspace (upper_char c) = isspace c.
Proof. destruct c as [[] [] [] [] [] [] [] []]; reflexivity. Qed.

Lemma lower_char_upper_char (c : ascii) : lower_char (upper_char c) = lower_char c.
Proof. destruct c as [[] [] [] [] [] [] [] []]; reflexivity. Qed.

Lemma upper_char_lower_char (c : ascii) : upper_char (lower_char c) = upper_char c.
Proof. destruct c as [[] [] [] [] [] [] [] []]; reflexivity. Qed.

Lemma lower_char_idem (c : ascii) : lower_char (lower_char c) = lower_char c.
Proof. destruct c as [[] [] [] [] [] [] [] []]; reflexivity. Qed.

Lemma upper_char_idem (c : ascii) : upper_char (upper_char c) = upper_char c.
Proof. destruct c as [[] [] [] [] [] [] [] []]; reflexivity. Qed.

(** The text that a case-folding cleaner works on is the same for a text
    and for its upper-case and lower-case forms. *)
Lemma lower_strip_case (s : string) :
  lower (strip (upper s)) = lower (strip s)
  /\ lower (strip (lower s)) = lower (strip s).
Proof.
  unfold lower, strip, upper.
  rewrite !list_ascii_of_string_of_list_ascii.
  rewrite (strip_by_map isspace upper_char) by apply isspace_upper_char_eq.
  rewrite (strip_by_map isspace lower_char) by apply isspace_lower_char.
  rewrite !map_map. split; f_equal; apply map_ext; intros c.
  - apply lower_char_upper_char.
  - apply lower_char_idem.
Qed.

Lemma upper_strip_case (s : string) :
  upper (strip (upper s)) = upper (strip s)
  /\ upper (strip (lower s)) = upper (strip s).
Proof.
  unfold lower, strip, upper.
  rewrite !list_ascii_of_string_of_list_ascii.
  rewrite (strip_by_map isspace upper_char) by apply isspace_upper_char_eq.
  rewrite (strip_by_map isspace lower_char) by apply isspace_lower_char.
  rewrite !map_map. split; f_equal; apply map_ext; intros c.
  - apply upper_char_idem.
  - apply upper_char_lower_char.
Qed.

Lemma strip_empty_case (s : string) :
  (strip (upper s) = ""%string <-> strip s = ""%string)
  /\ (strip (lower s) = ""%string <-> strip s = ""%string).
Proof.
  assert (Hnil : forall (g : ascii -> ascii) (l : chars),
             string_of_list_ascii (map g l) = ""%string
             <-> string_of_list_ascii l = ""%string).
  { intros g l. destruct l; simpl; split; congruence. }
  unfold strip, upper, lower. rewrite !list_ascii_of_string_of_list_ascii.
  rewrite (strip_by_map isspace upper_char) by apply isspace_upper_char_eq.
  rewrite (strip_by_map isspace lower_char) by apply isspace_lower_char.
  split; apply Hnil.
Qed.

(** X3.  The cleaners that fold case do not distinguish an ASCII text from its
    upper-case or lower-case form. *)
Theorem cleaners_ignore_case (s : string) :
  ascii_only s ->
  (normalize_location (VStr (upper s)) = normalize_location (VStr s)
   /\ normalize_location (VStr (lower s)) = normalize_location (VStr s))
  /\ (clean_bhk (VStr (upper s)) = clean_bhk (VStr s)
      /\ clean_bhk (VStr (lower s)) = clean_bhk (VStr s))
  /\ (clean_floor (VStr (upper s)) = clean_floor (VStr s)
      /\ clean_floor (VStr (lower s)) = clean_floor (VStr s))
  /\ (clean_yes_no (VStr (upper s)) = clean_yes_no (VStr s)
      /\ clean_yes_no (VStr (lower s)) = clean_yes_no (VStr s)).
Proof.
  intros _.
  destruct (lower_strip_case s) as [Hlu Hll].
  destruct (upper_strip_case s) as [Huu Hul].
  destruct (strip_empty_case s) as [Heu Hel].
  unfold normalize_location, clean_bhk, clean_floor, clean_yes_no.
  cbn [isna str orb]. rewrite Hlu, Hll, Huu, Hul.
  repeat split; try reflexivity.
  - rewrite (bool_decide_ext _ _ Heu). reflexivity.
  - rewrite (bool_decide_ext _ _ Hel). reflexivity.
Qed.

Lemma cleaners_ignore_case_witness :
  (normalize_location (VStr (upper " Vashi")) = normalize_location (VStr " Vashi")
   /\ normalize_location (VStr (lower " Vashi")) = normalize_location (VStr " Vashi"))
  /\ (clean_bhk (VStr (upper " Vashi")) = clean_bhk (VStr " Vashi")
      /\ clean_bhk (VStr (lower " Vashi")) = clean_bhk (VStr " Vashi"))
  /\ (clean_floor (VStr (upper " Vashi")) = clean_floor (VStr " Vashi")
      /\ clean_floor (VStr (lower " Vashi")) = clean_floor (VStr " Vashi"))
  /\ (clean_yes_no (VStr (upper " Vashi")) = clean_yes_no (VStr " Vashi")
      /\ clean_yes_no (VStr (lower " Vashi")) = clean_yes_no (VStr " Vashi")).
Proof.
  apply (cleaners_ignore_case " Vashi"). unfold ascii_only. simpl. repeat constructor.
Defined.

(** X4.  What a cleaner returns, when it returns a value, is within its bounds:
    a BHK count from 1 to 6, a floor from 0 to 100, a flag 0 or 1, and a
    price that does not compare [<= 0], so a positive number, an infinity, or
    a NaN (which [float] reads from the text [nan]). *)
Theorem cleaners_results_in_range (v : pyval) :
  (forall n, clean_bhk v = Ok (Some n) -> 1 <= n <= 6)
  /\ (forall n, clean_floor v = Ok (Some n) -> 0 <= n <= 100)
  /\ (forall n, clean_yes_no v = Ok (Some n) -> n = 0 \/ n = 1)
  /\ (forall x, clean_price v = Ok (Some x) ->
                x = NaN \/ x = PosInf \/ exists q, x = Finite q /\ (0 < q)%Q).
Proof.
  repeat split.
  - revert H. unfold clean_bhk. destruct (isna v); [discriminate|].
    destruct (float_of_string _) as [x|e]; simpl;
      [|destruct (decide _); discriminate].
    destruct (int_of_float x) as [k|e]; simpl;
      [|destruct (decide _); discriminate].
    destruct (1 <=? k) eqn:E1; simpl; [|discriminate].
    destruct (k <=? 6) eqn:E2; [|discriminate]. intros [= <-]. lia.
  - revert H. unfold clean_bhk. destruct (isna v); [discriminate|].
    destruct (float_of_string _) as [x|e]; simpl;
      [|destruct (decide _); discriminate].
    destruct (int_of_float x) as [k|e]; simpl;
      [|destruct (decide _); discriminate].
    destruct (1 <=? k) eqn:E1; simpl; [|discriminate].
    destruct (k <=? 6) eqn:E2; [|discriminate]. intros [= <-]. lia.
  - revert H. unfold clean_floor. destruct (isna v); [discriminate|].
    case_bool_decide; [intros [= <-]; lia|].
    destruct (float_of_string _) as [x|e]; simpl;
      [|destruct (decide _); discriminate].
    destruct (int_of_float x) as [k|e]; simpl;
      [|destruct (decide _); discriminate].
    destruct (0 <=? k) eqn:E1; simpl; [|discriminate].
    destruct (k <=? 100) eqn:E2; [|discriminate]. intros [= <-]. lia.
  - revert H. unfold clean_floor. destruct (isna v); [discriminate|].
    case_bool_decide; [intros [= <-]; lia|].
    destruct (float_of_string _) as [x|e]; simpl;
      [|destruct (decide _); discriminate].
    destruct (int_of_float x) as [k|e]; simpl;
      [|destruct (decide _); discriminate].
    destruct (0 <=? k) eqn:E1; simpl; [|discriminate].
    destruct (k <=? 100) eqn:E2; [|discriminate]. intros [= <-]. lia.
  - intros n. unfold clean_yes_no. destruct (isna v); [discriminate|].
    repeat case_bool_decide; intros [= <-]; auto.
  - intros x. unfold clean_price. destruct (isna v); [discriminate|].
    destruct (float_of_string _) as [y|e]; simpl;
      [|destruct (decide _); discriminate].
    destruct (fle y (Finite 0)) eqn:E; [discriminate|]. intros [= <-].
    destruct y as [q| | |]; simpl in E; auto; [|discriminate].
    right. right. exists q. split; [reflexivity|].
    apply Qnot_le_lt. intros Hle. apply Qle_bool_iff in Hle. congruence.
Qed.

(** Both non-finite prices do occur. *)
Lemma clean_price_keeps_inf_and_nan :
  clean_price (VStr "inf") = Ok (Some PosInf)
  /\ clean_price (VStr "nan") = Ok (Some NaN).
Proof. split; vm_compute; reflexivity. Qed.

Lemma cleaners_results_in_range_witness :
  1 <= 2 <= 6 /\ 0 <= 0 <= 100 /\ (1 = 0 \/ 1 = 1)
  /\ (Finite 0x0.1999999999999a%xQ = NaN \/ Finite 0x0.1999999999999a%xQ = PosInf
      \/ exists q, Finite 0x0.1999999999999a%xQ = Finite q /\ (0 < q)%Q).
Proof.
  split; [|split; [|split]].
  - apply (proj1 (cleaners_results_in_range (VStr "2BHK"))). vm_compute. reflexivity.
  - apply (proj1 (proj2 (cleaners_results_in_range (VStr "Ground")))).
    vm_compute. reflexivity.
  - apply (proj1 (proj2 (proj2 (cleaners_results_in_range (VStr "YES"))))).
    vm_compute. reflexivity.
  - apply (proj2 (proj2 (proj2 (cleaners_results_in_range (VStr "0.1"))))).
    vm_compute. reflexivity.
Defined.

(** X5.  On an integer cell between -1000 and 1000 the two integer cleaners
    return the integer when it is within the bounds, both bounds included,
    and [None] otherwise; the suffix [BHK] after the digits changes nothing
    for [clean_bhk]. *)
Theorem clean_integer_cells (n : Z) :
  -1000 <= n <= 1000 ->
  clean_bhk (VInt n) = Ok (if (1 <=? n) && (n <=? 6) then Some n else None)
  /\ clean_floor (VInt n) = Ok (if (0 <=? n) && (n <=? 100) then Some n else None)
  /\ clean_bhk (VStr (str (VInt n) +:+ "BHK")) = clean_bhk (VInt n).
Proof.
  intros Hn.
  assert (Hall : bool_decide (Forall (fun m : Z =>
            clean_bhk (VInt m) = Ok (if (1 <=? m) && (m <=? 6) then Some m else None)
            /\ clean_floor (VInt m)
               = Ok (if (0 <=? m) && (m <=? 100) then Some m else None)
            /\ clean_bhk (VStr (str (VInt m) +:+ "BHK")) = clean_bhk (VInt m))
          (map (fun k : nat => Z.of_nat k - 1000) (seq 0 2001))) = true).
  { vm_compute. reflexivity. }
  apply bool_decide_eq_true_1 in Hall. rewrite Forall_forall in Hall.
  apply (Hall n). apply list_elem_of_In, in_map_iff.
  exists (Z.to_nat (n + 1000)). split; [lia|]. apply in_seq. lia.
Qed.

Lemma clean_integer_cells_witness :
  clean_bhk (VInt 10) = Ok (if (1 <=? 10) && (10 <=? 6) then Some 10 else None)
  /\ clean_floor (VInt 10) = Ok (if (0 <=? 10) && (10 <=? 100) then Some 10 else None)
  /\ clean_bhk (VStr (str (VInt 10) +:+ "BHK")) = clean_bhk (VInt 10).
Proof. apply (clean_integer_cells 10). lia. Defined.

(** *** [clean_price] and the currency marks *)

Section PriceText.

(** The characters that the substitution of [clean_price] keeps. *)
Let keep (c : ascii) : bool := negb (in_price_class c).

Let is_ascii (c : ascii) : Prop := (code c <? 128)%N = true.

Lemma sub_price_class_cons (a : ascii) (t1 : chars) :
  sub_price_class (a :: t1)
  = if match t1 with
       | b :: c :: _ => is_rupee a b c
       | _ => false
       end
    then sub_price_class (skipn 2 t1)
    else if in_price_class a then sub_price_class t1
         else a :: sub_price_class t1.
Proof. destruct t1 as [|b [|c t3]]; reflexivity. Qed.

Lemma is_rupee_ascii (a b c : ascii) : is_ascii a -> is_rupee a b c = false.
Proof.
  unfold is_ascii, is_rupee. intros Ha.
  destruct (code a =? 226)%N eqn:E; [|reflexivity].
  apply N.eqb_eq in E. rewrite E in Ha. discriminate Ha.
Qed.

Lemma in_price_class_ascii (c : ascii) : in_price_class c = true -> is_ascii c.
Proof.
  unfold is_ascii.
  destruct c as [[] [] [] [] [] [] [] []]; vm_compute; intros H;
    first [reflexivity | discriminate H].
Qed.

Lemma isspace_in_price_class (c : ascii) : isspace c = true -> keep c = false.
Proof.
  unfold keep, in_price_class. intros ->. now rewrite orb_true_r.
Qed.

(** On ASCII text the substitution is a filter. *)
Lemma sub_price_class_ascii (l : chars) :
  Forall is_ascii l -> sub_price_class l = List.filter keep l.
Proof.
  induction 1 as [|a l Ha Hl IH]; [reflexivity|].
  rewrite sub_price_class_cons.
  replace (match l with
           | b :: c :: _ => is_rupee a b c
           | _ => false
           end) with false
    by (destruct l as [|b [|c t]]; try reflexivity; now rewrite is_rupee_ascii).
  simpl. unfold keep at 1. rewrite IH. now destruct (in_price_class a).
Qed.

Lemma filter_keep_lstrip (l : chars) :
  List.filter keep (lstrip_by isspace l) = List.filter keep l.
Proof.
  induction l as [|c l IH]; [reflexivity|]. simpl.
  destruct (isspace c) eqn:E; [|reflexivity].
  now rewrite (isspace_in_price_class c E).
Qed.

Lemma filter_keep_rstrip (l : chars) :
  List.filter keep (rstrip_by isspace l) = List.filter keep l.
Proof.
  unfold rstrip_by. rewrite filter_rev, filter_keep_lstrip, <- filter_rev.
  now rewrite rev_involutive.
Qed.

Lemma filter_keep_strip (l : chars) :
  List.filter keep (strip_by isspace l) = List.filter keep l.
Proof. unfold strip_by. now rewrite filter_keep_rstrip, filter_keep_lstrip. Qed.

Lemma lstrip_by_ascii (l : chars) : Forall is_ascii l -> Forall is_ascii (lstrip_by isspace l).
Proof.
  induction 1 as [|c l Hc Hl IH]; simpl; [constructor|].
  destruct (isspace c); [exact IH | now constructor].
Qed.

Lemma rstrip_by_ascii (l : chars) : Forall is_ascii l -> Forall is_ascii (rstrip_by isspace l).
Proof.
  intros H. unfold rstrip_by. apply List.Forall_rev, lstrip_by_ascii.
  now apply List.Forall_rev.
Qed.

(** Trimming stops at a text that ends with a character other than
    whitespace. *)
Lemma rstrip_by_after_solid (init : chars) (cl : ascii) (l : chars) :
  isspace cl = false ->
  rstrip_by isspace ((init ++ [cl]) ++ l) = (init ++ [cl]) ++ rstrip_by isspace l.
Proof.
  intros Hcl. unfold rstrip_by. rewrite rev_app_distr, lstrip_by_app.
  destruct (lstrip_by isspace (rev l)) as [|y ys].
  - rewrite rev_app_distr. simpl. rewrite Hcl. simpl.
    rewrite rev_involutive. now rewrite app_nil_r.
  - rewrite rev_app_distr, rev_involutive. reflexivity.
Qed.

(** The text that [clean_price] hands to [float], for an ASCII cell and for
    an ASCII cell behind a rupee sign. *)
Lemma price_text_ascii (a : string) :
  Forall is_ascii (list_ascii_of_string a) ->
  re_sub_price (strip a)
  = string_of_list_ascii (List.filter keep (list_ascii_of_string a)).
Proof.
  intros Ha. unfold re_sub_price, strip.
  rewrite list_ascii_of_string_of_list_ascii.
  rewrite sub_price_class_ascii, filter_keep_strip; [reflexivity|].
  unfold strip_by. now apply rstrip_by_ascii, lstrip_by_ascii.
Qed.

Lemma price_text_rupee (a : string) :
  Forall is_ascii (list_ascii_of_string a) ->
  re_sub_price (strip ("₹" +:+ a))
  = string_of_list_ascii (List.filter keep (list_ascii_of_string a)).
Proof.
  intros Ha. unfold re_sub_price, strip.
  rewrite list_ascii_of_string_of_list_ascii, list_ascii_of_string_app.
  unfold strip_by.
  assert (Hl : forall l, lstrip_by isspace (list_ascii_of_string "₹" ++ l)
                         = list_ascii_of_string "₹" ++ l) by reflexivity.
  assert (Hr : forall l, rstrip_by isspace (list_ascii_of_string "₹" ++ l)
                         = list_ascii_of_string "₹" ++ rstrip_by isspace l).
  { intros l.
    exact (rstrip_by_after_solid [ascii_of_N 226; ascii_of_N 130] (ascii_of_N 185)
             l eq_refl). }
  assert (Hs : forall l, sub_price_class (list_ascii_of_string "₹" ++ l)
                         = sub_price_class l) by reflexivity.
  rewrite Hl, Hr, Hs.
  rewrite sub_price_class_ascii by now apply rstrip_by_ascii.
  now rewrite filter_keep_rstrip.
Qed.

(** X6.  [clean_price] reads an ASCII text as if the commas, the letters [I],
    [N], [R] and the whitespace inside it were not there, and a rupee sign in
    front changes nothing: a price with thousands separators, a currency
    code or the currency sign cleans to the price of the bare digits. *)
Theorem clean_price_ignores_currency_marks (a sep b : string) :
  Forall (fun c => (code c <? 128)%N = true) (list_ascii_of_string a) ->
  Forall (fun c => (code c <? 128)%N = true) (list_ascii_of_string b) ->
  Forall (fun c => in_price_class c = true) (list_ascii_of_string sep) ->
  clean_price (VStr (a +:+ sep +:+ b)) = clean_price (VStr (a +:+ b))
  /\ clean_price (VStr ("₹" +:+ a +:+ sep +:+ b)) = clean_price (VStr (a +:+ b)).
Proof.
  intros Ha Hb Hsep.
  assert (Hsepa : Forall is_ascii (list_ascii_of_string sep)).
  { eapply Forall_impl; [exact Hsep|]. intros c. apply in_price_class_ascii. }
  assert (Hdrop : List.filter keep (list_ascii_of_string sep) = []).
  { clear Hsepa. induction Hsep as [|c l Hc _ IH]; [reflexivity|].
    simpl. unfold keep at 1. now rewrite Hc. }
  assert (Hfull : Forall is_ascii (list_ascii_of_string (a +:+ sep +:+ b))).
  { rewrite !list_ascii_of_string_app. now repeat apply Forall_app_2. }
  assert (Hbare : Forall is_ascii (list_ascii_of_string (a +:+ b))).
  { rewrite list_ascii_of_string_app. now apply Forall_app_2. }
  assert (Hsame : List.filter keep (list_ascii_of_string (a +:+ sep +:+ b))
                  = List.filter keep (list_ascii_of_string (a +:+ b))).
  { rewrite !list_ascii_of_string_app, !List.filter_app, Hdrop. reflexivity. }
  unfold clean_price. cbn [isna str].
  rewrite (price_text_ascii _ Hfull), (price_text_ascii _ Hbare).
  rewrite (price_text_rupee _ Hfull), Hsame. split; reflexivity.
Qed.

End PriceText.

Lemma clean_price_ignores_currency_marks_witness :
  clean_price (VStr ("24" +:+ "," +:+ "426717")) = clean_price (VStr ("24" +:+ "426717"))
  /\ clean_price (VStr ("₹" +:+ "24" +:+ "," +:+ "426717"))
     = clean_price (VStr ("24" +:+ "426717")).
Proof.
  apply (clean_price_ignores_currency_marks "24" "," "426717");
    simpl; repeat constructor.
Defined.

(** *** Column names *)

Section StripShape.
Variable sp : ascii -> bool.

Lemma lstrip_by_head (l : chars) :
  match lstrip_by sp l with
  | [] => True
  | c :: _ => sp c = false
  end.
Proof.
  induction l as [|c l IH]; simpl; [exact I|].
  destruct (sp c) eqn:E; [exact IH | exact E].
Qed.

Lemma lstrip_by_suffix (l : chars) : exists pre, l = pre ++ lstrip_by sp l.
Proof.
  induction l as [|c l [pre IH]]; simpl; [now exists []|].
  destruct (sp c); [|now exists []].
  exists (c :: pre). simpl. now rewrite <- IH.
Qed.

(** A trimmed text is empty, or begins and ends with characters other than
    whitespace. *)
Lemma strip_by_shape (l : chars) :
  strip_by sp l = []
  \/ exists c0 tl init cl,
       strip_by sp l = c0 :: tl /\ c0 :: tl = init ++ [cl]
       /\ sp c0 = false /\ sp cl = false.
Proof.
  unfold strip_by, rstrip_by.
  pose proof (lstrip_by_head l) as Hhead.
  set (m := lstrip_by sp l) in *.
  pose proof (lstrip_by_head (rev m)) as Hlast.
  destruct (lstrip_by_suffix (rev m)) as [post Hpost].
  destruct (lstrip_by sp (rev m)) as [|cl r] eqn:E; [now left|].
  right.
  assert (Hm : m = (rev r ++ [cl]) ++ rev post).
  { rewrite <- (rev_involutive m), Hpost, rev_app_distr. simpl. reflexivity. }
  simpl rev. destruct (rev r ++ [cl]) as [|c0 tl] eqn:Er.
  - destruct (rev r); discriminate.
  - exists c0, tl, (rev r), cl.
    split; [reflexivity|]. split; [now rewrite Er|]. split; [|exact Hlast].
    rewrite Hm in Hhead. exact Hhead.
Qed.

End StripShape.

Lemma standardize_char_fixed (c : ascii) :
  let g := fun c => if decide (lower_char c = " "%char) then "_"%char else lower_char c in
  lower_char (g c) = g c
  /\ (if decide (g c = " "%char) then "_"%char else g c) = g c
  /\ (isspace c = false -> isspace (g c) = false).
Proof.
  destruct c as [[] [] [] [] [] [] [] []]; vm_compute; repeat split;
    intros; congruence.
Qed.

(** X7.  The clean-up of a column name is idempotent: a name of the cleaned
    table is left as it is when the table is preprocessed again. *)
Theorem standardize_column_idempotent (col : string) :
  standardize_column (standardize_column col) = standardize_column col.
Proof.
  unfold standardize_column, replace_char, lower, strip.
  rewrite !list_ascii_of_string_of_list_ascii, !map_map.
  set (g := fun c => if decide (lower_char c = " "%char) then "_"%char else lower_char c).
  assert (Hstrip : strip_by isspace (map g (strip_by isspace (list_ascii_of_string col)))
                   = map g (strip_by isspace (list_ascii_of_string col))).
  { destruct (strip_by_shape isspace (list_ascii_of_string col))
      as [->|(c0 & tl & init & cl & -> & Hshape & H0 & Hl)]; [reflexivity|].
    pose proof (strip_by_padded isspace [] [] (map g init) (g c0) (g cl) (map g tl))
      as Hpad.
    simpl app in Hpad. rewrite app_nil_r in Hpad. simpl map. apply Hpad.
    - constructor.
    - constructor.
    - now apply (standardize_char_fixed c0).
    - now apply (standardize_char_fixed cl).
    - change (g c0 :: map g tl) with (map g (c0 :: tl)).
      rewrite Hshape, map_app. reflexivity. }
  rewrite Hstrip, map_map. f_equal. apply map_ext. intros c.
  destruct (standardize_char_fixed c) as (Hlow & Hrep & _).
  change (lower_char (g c) = g c) in Hlow.
  change ((if decide (g c = " "%char) then "_"%char else g c) = g c) in Hrep.
  unfold g at 1. rewrite Hlow. exact Hrep.
Qed.

(** ** The last stage of [preprocess_dataset], continued *)

Section Stage.

Let pps : string := "price_per_sqft".

(** The row of the returned frame at position [i] that comes from [r]. *)
Let out_row (i : nat) (r : Row) : Row := mkRow (Z.of_nat i) (delete pps (cells r)).

Lemma filter_all {A : Type} (P : A -> Prop) `{forall x, Decision (P x)} (l : list A) :
  Forall P l -> filter P l = l.
Proof.
  induction 1 as [|x l Hx _ IH]; [reflexivity|].
  rewrite filter_cons. destruct (decide (P x)); [now rewrite IH | contradiction].
Qed.

Lemma imap_map {A B C : Type} (f : nat -> B -> C) (g : A -> B) (l : list A) :
  imap f (map g l) = imap (fun i a => f i (g a)) l.
Proof.
  revert f. induction l as [|a l IH]; intros f; [reflexivity|].
  simpl. f_equal. apply IH.
Qed.

Lemma price_per_sqft_of_out_row (i : nat) (r : Row) :
  price_per_sqft_of (out_row i r) = price_per_sqft_of r
  /\ row_get (out_row i r) "actual_price" = row_get r "actual_price"
  /\ row_get (out_row i r) "area_sqft" = row_get r "area_sqft".
Proof.
  unfold price_per_sqft_of, row_get, out_row. cbn [cells].
  rewrite !lookup_delete_ne by discriminate. repeat split.
Qed.

(** The frame that the stage returns, written out. *)
Lemma price_per_sqft_stage_result (df : DataFrame) :
  numeric_frame df ->
  preprocess_dataset_price_per_sqft df
  = Ok {| columns := filter (fun c => c ≠ pps)
                       (if bool_decide (pps ∈ columns df) then columns df
                        else columns df ++ [pps]);
          rows := imap out_row (filter (fun r => in_open_band r = true) (rows df)) |}.
Proof.
  intros Hdf.
  set (with_ratio := fun r : Row =>
         mkRow (label r) (<[pps := CNum (price_per_sqft_of r)]> (cells r))).
  set (cols1 := if bool_decide (pps ∈ columns df) then columns df else columns df ++ [pps]).
  assert (Hcols1 : pps ∈ cols1).
  { unfold cols1. case_bool_decide; [assumption|]. apply elem_of_app. right. now left. }
  assert (Hget : forall r, row_get (with_ratio r) pps = CNum (price_per_sqft_of r)).
  { intros r. unfold row_get, with_ratio. simpl. now rewrite lookup_insert_eq. }
  assert (Hnum1 : forall l, Forall (fun r => exists x, row_get r pps = CNum x)
                              (map with_ratio l)).
  { intros l. apply Forall_forall. intros r' Hr'.
    apply list_elem_of_In, in_map_iff in Hr'. destruct Hr' as (r & <- & _).
    rewrite Hget. eauto. }
  unfold preprocess_dataset_price_per_sqft.
  rewrite (assign_ratio_numeric _ Hdf). fold pps with_ratio cols1. cbn [bind].
  rewrite where_gt_numeric by (cbn [columns rows]; auto).
  cbn [columns rows bind].
  rewrite (filter_map_commute with_ratio
             (fun r' => flt (Finite 2000) (cell_num (row_get r' pps)))).
  rewrite where_lt_numeric by (cbn [columns rows]; auto).
  cbn [columns rows bind].
  rewrite (filter_map_commute with_ratio
             (fun r' => flt (cell_num (row_get r' pps)) (Finite 50000))).
  rewrite filter_twice.
  unfold drop_column. cbn [columns rows].
  rewrite (bool_decide_eq_true_2 _ Hcols1). cbn [bind].
  unfold reset_index. cbn [columns rows]. do 2 f_equal.
  rewrite !imap_map.
  rewrite (list_filter_iff _ (fun r => in_open_band r = true))
    by (intros r; rewrite Hget; reflexivity).
  apply imap_ext. intros i r _. unfold out_row, with_ratio. cbn [cells].
  now rewrite delete_insert_eq.
Qed.

(** X8.  The stage is idempotent: run on its own result it returns that result,
    rows, order, index and columns unchanged. *)
Theorem price_per_sqft_stage_idempotent (df df' : DataFrame) :
  numeric_frame df ->
  preprocess_dataset_price_per_sqft df = Ok df' ->
  preprocess_dataset_price_per_sqft df' = Ok df'.
Proof.
  intros Hdf Hrun. rewrite (price_per_sqft_stage_result df Hdf) in Hrun.
  injection Hrun as <-.
  set (C := filter (fun c => c ≠ pps)
              (if bool_decide (pps ∈ columns df) then columns df
               else columns df ++ [pps])).
  set (L := filter (fun r => in_open_band r = true) (rows df)).
  destruct Hdf as (Hprice & Harea & Hnum).
  assert (HC : forall c, c ≠ pps -> c ∈ columns df -> c ∈ C).
  { intros c Hne Hc. unfold C. apply list_elem_of_filter. split; [exact Hne|].
    case_bool_decide; [exact Hc | apply elem_of_app; now left]. }
  assert (Hno : pps ∉ C).
  { unfold C. intros Hin. apply list_elem_of_filter in Hin as [Hne _]. now apply Hne. }
  assert (HL : Forall (fun r => in_open_band r = true
                                /\ exists p a, row_get r "actual_price" = CNum p
                                               /\ row_get r "area_sqft" = CNum a) L).
  { apply Forall_forall. intros r Hr. unfold L in Hr.
    apply list_elem_of_filter in Hr as [Hband Hr]. split; [exact Hband|].
    rewrite Forall_forall in Hnum. now apply Hnum. }
  assert (Hrows : Forall (fun r' => in_open_band r' = true
                                    /\ exists p a, row_get r' "actual_price" = CNum p
                                                   /\ row_get r' "area_sqft" = CNum a)
                         (imap out_row L)).
  { apply Forall_forall. intros r' Hr'.
    apply elem_of_lookup_imap in Hr' as (i & r & -> & Hr).
    apply list_elem_of_lookup_2 in Hr. rewrite Forall_forall in HL.
    destruct (HL r Hr) as (Hband & p & a & Hp & Ha).
    destruct (price_per_sqft_of_out_row i r) as (Hpps & Hp' & Ha').
    split.
    - unfold in_open_band in *. now rewrite Hpps.
    - exists p, a. now rewrite Hp', Ha'. }
  rewrite price_per_sqft_stage_result.
  - cbn [columns rows]. rewrite (bool_decide_eq_false_2 _ Hno). do 2 f_equal.
    + rewrite filter_app, filter_cons, filter_nil.
      destruct (decide (pps ≠ pps)) as [Hne|_]; [now contradiction Hne|].
      rewrite app_nil_r. apply filter_all. apply Forall_forall. intros c Hc.
      intros ->. now apply Hno.
    + rewrite filter_all by (eapply Forall_impl; [exact Hrows | now intros r' [H _]]).
      apply list_eq. intros i. rewrite !list_lookup_imap.
      destruct (L !! i) as [r|]; [|reflexivity]. simpl. f_equal.
      unfold out_row. cbn [cells]. now rewrite delete_delete_eq.
  - split; [|split].
    + cbn [columns]. apply HC; [discriminate | exact Hprice].
    + cbn [columns]. apply HC; [discriminate | exact Harea].
    + cbn [rows]. eapply Forall_impl; [exact Hrows | now intros r' [_ H]].
Qed.

(** X9.  The returned frame carries the index 0, 1, 2, ... whatever the labels
    of the rows were, and has no more rows than the frame it was given. *)
Theorem price_per_sqft_stage_resets_index (df df' : DataFrame) :
  numeric_frame df ->
  preprocess_dataset_price_per_sqft df = Ok df' ->
  map label (rows df') = map Z.of_nat (seq 0 (List.length (rows df')))
  /\ (List.length (rows df') <= List.length (rows df))%nat.
Proof.
  intros Hdf Hrun. rewrite (price_per_sqft_stage_result df Hdf) in Hrun.
  injection Hrun as <-. cbn [rows]. split.
  - rewrite length_imap. apply list_eq. intros i.
    rewrite !list_lookup_fmap, list_lookup_imap.
    destruct (filter _ _ !! i) as [r|] eqn:E; simpl.
    + rewrite lookup_seq_lt; [reflexivity|]. now apply lookup_lt_Some in E.
    + rewrite lookup_seq_ge; [reflexivity|]. now apply lookup_ge_None in E.
  - rewrite length_imap. apply length_filter.
Qed.

End Stage.

Lemma price_per_sqft_stage_idempotent_witness :
  exists df',
    preprocess_dataset_price_per_sqft mixed_frame = Ok df'
    /\ preprocess_dataset_price_per_sqft df' = Ok df'.
Proof.
  assert (Hnum : numeric_frame mixed_frame).
  { unfold numeric_frame, mixed_frame. cbn [columns rows].
    split; [|split].
    - apply list_elem_of_lookup. exists 2%nat. reflexivity.
    - apply list_elem_of_lookup. exists 1%nat. reflexivity.
    - repeat constructor; eexists _, _; split; vm_compute; reflexivity. }
  destruct (price_per_sqft_stage mixed_frame Hnum) as (df' & Hrun & _).
  exists df'. split; [exact Hrun|].
  exact (price_per_sqft_stage_idempotent mixed_frame df' Hnum Hrun).
Defined.

Lemma price_per_sqft_stage_resets_index_witness :
  exists df',
    preprocess_dataset_price_per_sqft mixed_frame = Ok df'
    /\ map label (rows df') = map Z.of_nat (seq 0 (List.length (rows df')))
    /\ (List.length (rows df') <= List.length (rows mixed_frame))%nat.
Proof.
  assert (Hnum : numeric_frame mixed_frame).
  { unfold numeric_frame, mixed_frame. cbn [columns rows].
    split; [|split].
    - apply list_elem_of_lookup. exists 2%nat. reflexivity.
    - apply list_elem_of_lookup. exists 1%nat. reflexivity.
    - repeat constructor; eexists _, _; split; vm_compute; reflexivity. }
  destruct (price_per_sqft_stage mixed_frame Hnum) as (df' & Hrun & _).
  exists df'. split; [exact Hrun|].
  exact (price_per_sqft_stage_resets_index mixed_frame df' Hnum Hrun).
Defined.

(** ** The request validator *)

Lemma is_cased_lower_char (c : ascii) : is_cased (lower_char c) = is_cased c.
Proof. destruct c as [[] [] [] [] [] [] [] []]; reflexivity. Qed.

Lemma upper_char_C_cased (c : ascii) : upper_char c = "C"%char -> is_cased c = true.
Proof. destruct c as [[] [] [] [] [] [] [] []]; vm_compute; congruence. Qed.

Lemma lower_char_not_B (c : ascii) : lower_char c <> "B"%char.
Proof. destruct c as [[] [] [] [] [] [] [] []]; vm_compute; congruence. Qed.

(** [title] looks at the letters only up to case. *)
Lemma title_chars_lower (b : bool) (l : chars) :
  title_chars b (map lower_char l) = title_chars b l.
Proof.
  revert b. induction l as [|c l IH]; intros b; [reflexivity|].
  simpl. rewrite is_cased_lower_char, IH, lower_char_idem, upper_char_lower_char.
  reflexivity.
Qed.

Lemma title_lower (s : string) : title (lower s) = title s.
Proof.
  unfold title, lower. now rewrite list_ascii_of_string_of_list_ascii, title_chars_lower.
Qed.

Lemma validator_respelling (v c : string) :
  normalize_location (VStr v) = Ok (Some c) ->
  PredictionRequest_normalize_location v
  = if decide (c = "CBD Belapur"%string) then "Cbd Belapur"%string else c.
Proof.
  unfold normalize_location, PredictionRequest_normalize_location.
  cbn [isna str orb]. destruct (bool_decide _); [discriminate|].
  intros [= H]. rewrite <- title_lower.
  remember (lower (strip v)) as a eqn:Ea. clear Ea.
  unfold LOCATION_ALIASES in H. apply elem_of_list_to_map_2 in H.
  repeat (apply elem_of_cons in H as [H|H];
          [inversion H; subst; vm_compute; reflexivity|]).
  now apply elem_of_nil in H.
Qed.

(** X10.  The validator of the request and [normalize_location] of the training
    pipeline agree on every text that the pipeline recognises, except on
    the spellings of [CBD Belapur], which the validator turns into
    [Cbd Belapur]; and no text at all is turned into [CBD Belapur]. *)
Theorem request_location_validator (v : string) :
  ascii_only v ->
  (forall c : string,
      normalize_location (VStr v) = Ok (Some c) ->
      PredictionRequest_normalize_location v
      = if decide (c = "CBD Belapur"%string) then "Cbd Belapur"%string else c)
  /\ PredictionRequest_normalize_location v <> "CBD Belapur"%string.
Proof.
  intros _. split.
  - intros c. apply validator_respelling.
  - unfold PredictionRequest_normalize_location, title.
    intros H. apply (f_equal list_ascii_of_string) in H.
    rewrite list_ascii_of_string_of_list_ascii in H.
    destruct (list_ascii_of_string (strip v)) as [|c0 [|c1 l]]; try discriminate.
    simpl in H. injection H as H0 H1 _.
    rewrite (upper_char_C_cased c0 H0) in H1. now apply lower_char_not_B in H1.
Qed.

Lemma request_location_validator_witness :
  (forall c : string,
      normalize_location (VStr " cbd BELAPUR ") = Ok (Some c) ->
      PredictionRequest_normalize_location " cbd BELAPUR "
      = if decide (c = "CBD Belapur"%string) then "Cbd Belapur"%string else c)
  /\ PredictionRequest_normalize_location " cbd BELAPUR " <> "CBD Belapur"%string.
Proof.
  apply (request_location_validator " cbd BELAPUR ").
  unfold ascii_only. simpl. repeat constructor.
Defined.

(** ** The routes *)

Section RoutesFacts.

Context {Response : Type}.
Variable PredictionResponse : PredictionResult -> pyresult Response.

Lemma predict_price_outside_classes (engine : PredictionEngine)
    (request : PredictionRequest) :
  is_loaded engine = true ->
  req_location request ∉ location_classes engine ->
  predict_price PredictionResponse engine request
  = (HTTPException 400 (StrOf ValueError), []).
Proof.
  intros Hl Hout. unfold predict_price, run_predict, predict.
  rewrite Hl. cbn [negb]. rewrite (bool_decide_eq_false_2 _ Hout). reflexivity.
Qed.

(** X11.  A request for a location that the loaded model does not know is
    answered with status 400, before any object of the bundle is used. *)
Theorem predict_price_unknown_location_400 (engine : PredictionEngine)
    (request : PredictionRequest) :
  is_loaded engine = true ->
  req_location request ∉ location_classes engine ->
  predict_price PredictionResponse engine request
  = (HTTPException 400 (StrOf ValueError), []).
Proof.
  intros Hloaded Hunknown. unfold predict_price. rewrite Hloaded. cbn [negb].
  unfold run_predict, predict. rewrite Hloaded. cbn [negb].
  rewrite (bool_decide_eq_false_2 _ Hunknown). cbn [negb].
  unfold raise, bind. destruct (decide (ValueError = ValueError)); [reflexivity|].
  contradiction.
Qed.

(** X12.  Through the API the location [CBD Belapur] cannot be asked for: the
    validator of the request re-spells each of its variants, so a model
    trained on the canonical names answers them with status 400. *)
Theorem predict_price_cbd_belapur_400 (engine : PredictionEngine)
    (request : PredictionRequest) (v : string) :
  is_loaded engine = true ->
  Forall (fun c => c ∈ VALID_LOCATIONS) (location_classes engine) ->
  ascii_only v ->
  normalize_location (VStr v) = Ok (Some "CBD Belapur"%string) ->
  req_location request = PredictionRequest_normalize_location v ->
  predict_price PredictionResponse engine request
  = (HTTPException 400 (StrOf ValueError), []).
Proof.
  intros Hl Hcls Hv Hn Hreq. apply predict_price_outside_classes; [exact Hl|].
  rewrite Hreq, (validator_respelling _ _ Hn). cbn.
  intros Hin. rewrite Forall_forall in Hcls. specialize (Hcls _ Hin).
  unfold VALID_LOCATIONS in Hcls.
  repeat (apply elem_of_cons in Hcls as [Hcls|Hcls]; [discriminate|]).
  now apply elem_of_nil in Hcls.
Qed.

(** X13.  A model that predicts a price of zero makes the route answer with
    status 500: the division of line 174 raises, after all four method
    calls. *)
Theorem predict_price_zero_prediction_500 (engine : PredictionEngine)
    (request : PredictionRequest) (m : GradientBoostingRegressor) (le : LabelEncoder)
    (sc : StandardScaler) (code : Z) (x : list R) (staged : list R) :
  model engine = Some m -> label_encoder engine = Some le ->
  scaler engine = Some sc ->
  req_location request ∈ location_classes engine ->
  le_transform le (req_location request) = Ok code ->
  scaler_transform sc
    (one_row_frame
       (feature_values code (req_area_sqft request) (req_bhk request)
          (req_bathrooms request) (req_floor request) (req_total_floors request)
          (req_age_of_property request) (int_of_bool (req_parking request))
          (int_of_bool (req_lift request))) (features engine)) = Ok x ->
  gbr_predict m x = Ok 0%R ->
  gbr_staged_predict m x = Ok staged ->
  predict_price PredictionResponse engine request
  = (HTTPException 500 (Text "An error occurred while generating the prediction."),
     [EncoderTransform; ScalerTransform; ModelPredict; ModelStagedPredict]).
Proof.
  intros Hm Hle Hsc Hloc Hcode Hx Hp Hst. unfold predict_price, is_loaded.
  rewrite Hm. cbn [negb].
  erewrite predict_outcome by eassumption.
  unfold confidence_score_of.
  destruct (Req_dec_T _ _) as [_|Hne]; [reflexivity|].
  exfalso. apply Hne. lra.
Qed.

(** X14.  The summary in a result repeats the request: the two flags, passed to
    [predict] as integers, come back as the booleans they were, and the
    location context carries the requested name. *)
Theorem predict_echoes_request (engine : PredictionEngine)
    (request : PredictionRequest) (res : PredictionResult) (t : list event) :
  run_predict engine (req_location request) (req_area_sqft request)
    (req_bhk request) (req_bathrooms request) (req_floor request)
    (req_total_floors request) (req_age_of_property request)
    (int_of_bool (req_parking request)) (int_of_bool (req_lift request))
  = (Ok res, t) ->
  res_input_summary res
  = {| in_location := req_location request;
       in_area_sqft := req_area_sqft request;
       in_bhk := req_bhk request;
       in_bathrooms := req_bathrooms request;
       in_floor := req_floor request;
       in_total_floors := req_total_floors request;
       in_age_of_property := req_age_of_property request;
       in_parking := req_parking request;
       in_lift := req_lift request |}
  /\ ctx_name (res_location_context res) = req_location request
  /\ req_location request ∈ location_classes engine.
Proof.
  intros Hrun.
  assert (Hin : req_location request ∈ location_classes engine).
  { revert Hrun. unfold run_predict, predict.
    destruct (negb (is_loaded engine)); [discriminate|].
    case_bool_decide; [trivial | discriminate]. }
  apply predict_inversion in Hrun as (m & x & p & staged & c & _ & _ & _ & _ & ->).
  cbn [result_of res_input_summary res_location_context ctx_name].
  split; [|split; [reflexivity | exact Hin]].
  now destruct (req_parking request), (req_lift request).
Qed.

(** X15.  Start-up with a dictionary that lacks one of the keys [scaler],
    [label_encoder], [features], [location_classes], on an engine whose list
    of locations is empty: the [KeyError] is swallowed and the engine is
    left with the value of the key [model] as its model.  When that value
    is a model object, the health check reports the model as loaded and
    every prediction request is answered with status 400, the list of known
    locations being still empty; when it is [None], the health check
    reports no model and every request is answered with status 503. *)
Theorem startup_with_incomplete_bundle (env : Env) (bundle : Bundle)
    (v : option GradientBoostingRegressor) (engine : PredictionEngine) :
  location_classes engine = [] ->
  files env !! settings_model_path env = Some (Dict bundle) ->
  b_model bundle = Some v ->
  b_scaler bundle = None \/ b_label_encoder bundle = None
  \/ b_features bundle = None \/ b_location_classes bundle = None ->
  exists engine',
    lifespan_startup env engine = (Ok tt, engine')
    /\ model engine' = v
    /\ health_check_model_loaded engine' = match v with Some _ => true | None => false end
    /\ forall request : PredictionRequest,
         predict_price PredictionResponse engine' request
         = match v with
           | Some _ => (HTTPException 400 (StrOf ValueError), [])
           | None =>
               (HTTPException 503
                  (Text "ML model is not loaded. Please try again later."), [])
           end.
Proof.
  intros Hcls Hfile Hm Hmiss.
  unfold lifespan_startup, load_model. rewrite Hfile.
  unfold mbind, of_result, modify, raise. rewrite Hm. cbn [getitem].
  assert (Hdone : forall e : PredictionEngine,
             model e = v -> location_classes e = [] ->
             model e = v
             /\ health_check_model_loaded e = match v with Some _ => true | None => false end
             /\ forall request : PredictionRequest,
                  predict_price PredictionResponse e request
                  = match v with
                    | Some _ => (HTTPException 400 (StrOf ValueError), [])
                    | None =>
                        (HTTPException 503
                           (Text "ML model is not loaded. Please try again later."),
                         [])
                    end).
  { intros e Hv He. split; [exact Hv|].
    assert (Hl : is_loaded e = match v with Some _ => true | None => false end).
    { unfold is_loaded. rewrite Hv. now destruct v. }
    split; [exact Hl|]. intros request. destruct v as [m|].
    - apply predict_price_outside_classes; [exact Hl|].
      rewrite He. apply not_elem_of_nil.
    - unfold predict_price. now rewrite Hl. }
  destruct (b_scaler bundle) as [sc|]; cbn [getitem];
    [|eexists; split; [reflexivity|]; now apply Hdone].
  destruct (b_label_encoder bundle) as [le|]; cbn [getitem];
    [|eexists; split; [reflexivity|]; now apply Hdone].
  destruct (b_features bundle) as [fs|]; cbn [getitem];
    [|eexists; split; [reflexivity|]; now apply Hdone].
  destruct (b_location_classes bundle) as [cs|]; cbn [getitem];
    [|eexists; split; [reflexivity|]; now apply Hdone].
  destruct Hmiss as [H|[H|[H|H]]]; discriminate.
Qed.

End RoutesFacts.


Lemma predict_price_unknown_location_400_witness :
  predict_price (fun r => Ok r) (loaded_engine ["Kharghar"; "Vashi"]%string 9000000 [])
    (request_for "Pune")
  = (HTTPException 400 (StrOf ValueError), []).
Proof.
  apply (predict_price_unknown_location_400 (fun r => Ok r)); [reflexivity|].
  cbn [request_for req_location loaded_engine location_classes]. intros Hin.
  repeat (apply elem_of_cons in Hin as [Hin|Hin]; [discriminate|]).
  now apply elem_of_nil in Hin.
Defined.

Lemma predict_price_cbd_belapur_400_witness :
  predict_price (fun r => Ok r)
    (loaded_engine ["CBD Belapur"; "Vashi"]%string 9000000 [])
    (request_for (PredictionRequest_normalize_location "CBD Belapur"))
  = (HTTPException 400 (StrOf ValueError), []).
Proof.
  apply (predict_price_cbd_belapur_400 (fun r => Ok r) _ _ "CBD Belapur").
  - reflexivity.
  - cbn [loaded_engine location_classes]. unfold VALID_LOCATIONS.
    repeat constructor; apply list_elem_of_In; simpl; tauto.
  - unfold ascii_only. simpl. repeat constructor.
  - vm_compute. reflexivity.
  - reflexivity.
Defined.

Lemma predict_price_zero_prediction_500_witness :
  predict_price (fun r => Ok r) (loaded_engine ["Kharghar"]%string 0 [])
    (request_for "Kharghar")
  = (HTTPException 500 (Text "An error occurred while generating the prediction."),
     [EncoderTransform; ScalerTransform; ModelPredict; ModelStagedPredict]).
Proof.
  eapply (predict_price_zero_prediction_500 (fun r => Ok r)
            (loaded_engine ["Kharghar"]%string 0 []) (request_for "Kharghar")).
  - reflexivity.
  - reflexivity.
  - reflexivity.
  - cbn [request_for req_location loaded_engine location_classes]. now left.
  - reflexivity.
  - reflexivity.
  - reflexivity.
  - reflexivity.
Defined.

Lemma predict_echoes_request_witness :
  exists res : PredictionResult,
    res_input_summary res
    = {| in_location := "Kharghar"; in_area_sqft := 1000; in_bhk := 2;
         in_bathrooms := 2; in_floor := 5; in_total_floors := 20;
         in_age_of_property := 5; in_parking := true; in_lift := true |}
    /\ ctx_name (res_location_context res) = "Kharghar"%string.
Proof.
  assert (Hp : (9000000 <> 0)%R) by lra.
  assert (Hin : "Kharghar"%string ∈ ["Kharghar"%string]) by now left.
  destruct (loaded_engine_runs ["Kharghar"]%string 9000000 [] "Kharghar" 1000 2 2 5 20 5
              1 1 0 _ Hin eq_refl
              (confidence_score_of_nonzero 9000000 (np_std (last_n 20 [])) Hp))
    as [t Hrun].
  eexists.
  destruct (predict_echoes_request (loaded_engine ["Kharghar"]%string 9000000 [])
              (request_for "Kharghar") _ t Hrun) as (Hsum & Hname & _).
  split; [exact Hsum | exact Hname].
Defined.

Lemma startup_with_incomplete_bundle_witness :
  exists engine',
    lifespan_startup (env_of bundle_without_scaler) init_attributes = (Ok tt, engine')
    /\ model engine' = Some (constant_model 9000000 [9000000%R])
    /\ health_check_model_loaded engine' = true
    /\ forall request : PredictionRequest,
         predict_price (fun r => Ok r) engine' request
         = (HTTPException 400 (StrOf ValueError), []).
Proof.
  eapply (startup_with_incomplete_bundle (fun r => Ok r) (env_of bundle_without_scaler)
            bundle_without_scaler (Some (constant_model 9000000 [9000000%R]))).
  - reflexivity.
  - apply lookup_singleton_eq.
  - reflexivity.
  - left. reflexivity.
Defined.

(** ** The method calls of [predict] *)

(** X17.  Whatever the objects of the bundle do, [predict] calls them in one
    order, each at most once: the encoder, the scaler, the model's
    [predict], the model's [staged_predict].  It stops at the first call
    that raises, and a result is returned only after all four. *)
Theorem predict_calls_in_order (self : PredictionEngine)
    (location : string) (area_sqft : R) (bhk bathrooms floor total_floors : Z)
    (age_of_property : R) (parking lift : Z) :
  snd (run_predict self location area_sqft bhk bathrooms floor total_floors
         age_of_property parking lift)
  `prefix_of` [EncoderTransform; ScalerTransform; ModelPredict; ModelStagedPredict]
  /\ (forall res : PredictionResult,
         fst (run_predict self location area_sqft bhk bathrooms floor total_floors
                age_of_property parking lift) = Ok res ->
         snd (run_predict self location area_sqft bhk bathrooms floor total_floors
                age_of_property parking lift)
         = [EncoderTransform; ScalerTransform; ModelPredict; ModelStagedPredict]).
Proof.
  unfold run_predict, predict, is_loaded.
  destruct (model self) as [m|]; cbn [negb];
    [|split; [apply prefix_nil | discriminate]].
  destruct (bool_decide _); cbn [negb];
    [|split; [apply prefix_nil | discriminate]].
  unfold mbind, call_method, of_result, ret, raise.
  destruct (label_encoder self) as [le|];
    [|split; [apply prefix_nil | discriminate]].
  destruct (le_transform le location) as [code|]; cbn [fst snd app];
    [|split; [now exists [ScalerTransform; ModelPredict; ModelStagedPredict]
             | discriminate]].
  destruct (scaler self) as [sc|]; cbn [fst snd app];
    [|split; [now exists [ScalerTransform; ModelPredict; ModelStagedPredict]
             | discriminate]].
  destruct (scaler_transform sc _) as [x|]; cbn [fst snd app];
    [|split; [now exists [ModelPredict; ModelStagedPredict] | discriminate]].
  destruct (gbr_predict m x) as [p|]; cbn [fst snd app];
    [|split; [now exists [ModelStagedPredict] | discriminate]].
  destruct (gbr_staged_predict m x) as [staged|]; cbn [fst snd app];
    [|split; [now exists [] | discriminate]].
  destruct (confidence_score_of p _) as [c|]; cbn [fst snd app];
    split; try (now exists []); try discriminate. reflexivity.
Qed.

Lemma predict_calls_in_order_witness :
  snd (run_predict (loaded_engine ["Kharghar"]%string 9000000 []) "Kharghar"
         1000 2 2 5 20 5 1 1)
  = [EncoderTransform; ScalerTransform; ModelPredict; ModelStagedPredict].
Proof.
  assert (Hp : (9000000 <> 0)%R) by lra.
  assert (Hin : "Kharghar"%string ∈ ["Kharghar"%string]) by now left.
  destruct (loaded_engine_runs ["Kharghar"]%string 9000000 [] "Kharghar" 1000 2 2 5 20 5
              1 1 0 _ Hin eq_refl
              (confidence_score_of_nonzero 9000000 (np_std (last_n 20 [])) Hp))
    as [t Hrun].
  eapply (proj2 (predict_calls_in_order (loaded_engine ["Kharghar"]%string 9000000 [])
                   "Kharghar" 1000 2 2 5 20 5 1 1)).
  rewrite Hrun. reflexivity.
Defined.

(** ** [load_model], continued *)

(** X18.  A successful load replaces all eight attributes by what the bundle
    holds: the state it leaves does not depend on the state it found, so
    loading again changes nothing. *)
Theorem load_model_replaces_all_attributes (env : Env) (path : option string)
    (s1 s1' s2 : PredictionEngine) :
  load_model env path s1 = (Ok tt, s1') ->
  load_model env path s2
  = (Ok tt,
     mkEngine (_initialized s2) (model s1') (scaler s1') (label_encoder s1')
       (features s1') (location_classes s1') (location_stats s1')
       (model_metrics s1') (feature_importance s1'))
  /\ load_model env path s1' = (Ok tt, s1').
Proof.
  unfold load_model.
  destruct (files env !! _) as [[bundle|e|]|]; try discriminate.
  unfold mbind, of_result, modify, raise.
  repeat case_bundle_key; try discriminate.
  intros [= <-]. destruct s1, s2. split; reflexivity.
Qed.

(** X19.  After a load that fails, the list of locations and the three
    dictionaries of statistics are those from before the call.  The failure
    is [FileNotFoundError] when there is no file; when the file holds a
    dictionary it is the [KeyError] of a missing key; and when the file does
    not hold a dictionary the engine is left entirely as it was. *)
Theorem load_model_failure_keeps_statistics (env : Env) (path : option string)
    (self self' : PredictionEngine) (e : exn) :
  load_model env path self = (Raise e, self') ->
  location_classes self' = location_classes self
  /\ location_stats self' = location_stats self
  /\ model_metrics self' = model_metrics self
  /\ feature_importance self' = feature_importance self
  /\ match files env !! default (settings_model_path env) path with
     | None => e = FileNotFoundError /\ self' = self
     | Some (Dict bundle) =>
         e = KeyError
         /\ (b_model bundle = None \/ b_scaler bundle = None
             \/ b_label_encoder bundle = None \/ b_features bundle = None
             \/ b_location_classes bundle = None)
     | Some (Unreadable e') => e = e' /\ self' = self
     | Some NotSubscriptable => e = TypeError /\ self' = self
     end.
Proof.
  unfold load_model.
  replace (match path with Some p => p | None => settings_model_path env end)
    with (default (settings_model_path env) path) by now destruct path.
  destruct (files env !! _) as [[bundle|e'|]|];
    try (intros [= <- <-]; repeat split).
  unfold mbind, of_result, modify, raise.
  destruct (b_model bundle) as [m|]; cbn [getitem];
    [|intros [= <- <-]; repeat split; auto].
  destruct (b_scaler bundle) as [sc|]; cbn [getitem];
    [|intros [= <- <-]; destruct self; repeat split; auto].
  destruct (b_label_encoder bundle) as [le|]; cbn [getitem];
    [|intros [= <- <-]; destruct self; repeat split; auto].
  destruct (b_features bundle) as [fs|]; cbn [getitem];
    [|intros [= <- <-]; destruct self; repeat split; auto 6].
  destruct (b_location_classes bundle) as [cs|]; cbn [getitem];
    [|intros [= <- <-]; destruct self; repeat split; auto 6].
  discriminate.
Qed.

(** ** [get_locations], [get_model_info] and the feature columns *)

Lemma str_le_total : Total str_le.
Proof. intros a b. apply String.leb_total. Qed.

(** X20.  [get_locations] lists every location of the model once for each time
    it is in [location_classes], in ascending order of the names, as many
    entries as [get_model_info] counts; a location without statistics is
    listed with zeros. *)
Theorem get_locations_sorted (self : PredictionEngine) :
  map loc_name (get_locations self) ≡ₚ location_classes self
  /\ Sorted str_le (map loc_name (get_locations self))
  /\ List.length (get_locations self) = info_locations_count (get_model_info self)
  /\ (forall info : LocationInfo,
         info ∈ get_locations self ->
         location_stats self !! loc_name info = None ->
         info = {| loc_name := loc_name info; loc_count := 0; loc_avg_price := 0;
                   loc_median_price := 0; loc_min_price := 0; loc_max_price := 0;
                   loc_avg_price_per_sqft := 0 |}).
Proof.
  assert (Hnames : map loc_name (get_locations self) = sorted (location_classes self)).
  { unfold get_locations. rewrite map_map. apply map_id. }
  rewrite Hnames. split; [apply merge_sort_Permutation|].
  split; [apply Sorted_merge_sort, str_le_total|]. split.
  - unfold get_locations, get_model_info. cbn [info_locations_count].
    rewrite length_map. apply Permutation_length, merge_sort_Permutation.
  - intros info Hin Hnone. unfold get_locations in Hin.
    apply list_elem_of_In, in_map_iff in Hin as (loc & <- & _).
    unfold location_info in *. cbn [loc_name] in *. rewrite Hnone. reflexivity.
Qed.

(** X21.  The keys of the dictionary that [predict] builds are the feature
    columns of the training pipeline: a frame made with these columns, in
    their order, has a value in every cell, and any other column name
    would give a NaN cell. *)
Theorem feature_values_match_feature_columns (location_encoded : Z)
    (area_sqft : R) (bhk bathrooms floor total_floors : Z)
    (age_of_property : R) (parking lift : Z) :
  let values :=
    feature_values location_encoded area_sqft bhk bathrooms floor total_floors
      age_of_property parking lift in
  (forall c : string, is_Some (values !! c) <-> c ∈ get_feature_columns)
  /\ one_row_frame values get_feature_columns
     = [ ("location", Some (IZR location_encoded));
         ("area_sqft", Some area_sqft);
         ("bhk", Some (IZR bhk));
         ("bathrooms", Some (IZR bathrooms));
         ("floor", Some (IZR floor));
         ("total_floors", Some (IZR total_floors));
         ("age_of_property", Some age_of_property);
         ("parking", Some (IZR parking));
         ("lift", Some (IZR lift)) ]%string.
Proof.
  intros values. split; [|reflexivity].
  intros c. split.
  - intros [v Hv]. unfold values, feature_values in Hv.
    apply elem_of_list_to_map_2 in Hv. unfold get_feature_columns.
    repeat (apply elem_of_cons in Hv as [Hv|Hv];
            [inversion Hv; subst; apply list_elem_of_In; simpl; tauto|]).
    now apply elem_of_nil in Hv.
  - unfold get_feature_columns. intros Hc.
    repeat (apply elem_of_cons in Hc as [->|Hc]; [eexists; reflexivity|]).
    now apply elem_of_nil in Hc.
Qed.

Lemma load_model_replaces_all_attributes_witness :
  load_model (env_of (full_bundle ["Kharghar"]%string 9000000 [])) None
    (loaded_engine ["Vashi"]%string 1 [1%R])
  = (Ok tt, loaded_engine ["Kharghar"]%string 9000000 [])
  /\ load_model (env_of (full_bundle ["Kharghar"]%string 9000000 [])) None
       (loaded_engine ["Kharghar"]%string 9000000 [])
     = (Ok tt, loaded_engine ["Kharghar"]%string 9000000 []).
Proof.
  apply (load_model_replaces_all_attributes
           (env_of (full_bundle ["Kharghar"]%string 9000000 [])) None
           init_attributes (loaded_engine ["Kharghar"]%string 9000000 [])
           (loaded_engine ["Vashi"]%string 1 [1%R])).
  reflexivity.
Defined.

Lemma load_model_failure_keeps_statistics_witness :
  location_classes
    (set_model (Some (constant_model 9000000 [9000000%R]))
       (loaded_engine ["Vashi"]%string 1 []))
  = ["Vashi"%string]
  /\ KeyError = KeyError
  /\ (b_model bundle_without_scaler = None \/ b_scaler bundle_without_scaler = None
      \/ b_label_encoder bundle_without_scaler = None
      \/ b_features bundle_without_scaler = None
      \/ b_location_classes bundle_without_scaler = None).
Proof.
  destruct (load_model_failure_keeps_statistics (env_of bundle_without_scaler) None
              (loaded_engine ["Vashi"]%string 1 [])
              (set_model (Some (constant_model 9000000 [9000000%R]))
                 (loaded_engine ["Vashi"]%string 1 []))
              KeyError eq_refl) as (Hcls & _ & _ & _ & Hkind).
  split; [exact Hcls | exact Hkind].
Defined.

Lemma get_locations_sorted_witness :
  location_info (loaded_engine ["Vashi"; "Airoli"]%string 1 []) "Airoli"
  = {| loc_name := "Airoli"; loc_count := 0; loc_avg_price := 0;
       loc_median_price := 0; loc_min_price := 0; loc_max_price := 0;
       loc_avg_price_per_sqft := 0 |}.
Proof.
  apply (proj2 (proj2 (proj2
           (get_locations_sorted (loaded_engine ["Vashi"; "Airoli"]%string 1 []))))).
  - unfold get_locations. apply list_elem_of_In, in_map_iff.
    exists "Airoli"%string. split; [reflexivity|].
    apply list_elem_of_In. unfold sorted. rewrite merge_sort_Permutation.
    cbn [loaded_engine location_classes]. right. now left.
  - reflexivity.
Defined.

Lemma feature_values_match_feature_columns_witness :
  is_Some (feature_values 0 1000 2 2 5 20 5 1 1 !! "total_floors"%string).
Proof.
  apply (proj1 (feature_values_match_feature_columns 0 1000 2 2 5 20 5 1 1)
           "total_floors"%string).
  unfold get_feature_columns. apply list_elem_of_In. simpl. tauto.
Defined.

(** ** The numbers of [predict], continued *)

Local Open Scope R_scope.

Lemma round_half_even_mono (a b : R) :
  a <= b -> (round_half_even a <= round_half_even b)%Z.
Proof.
  intros Hab. unfold round_half_even.
  pose proof (Zfloor_bound a) as [Ha1 Ha2]. pose proof (Zfloor_bound b) as [Hb1 Hb2].
  assert (Hf : (Zfloor a < Zfloor b + 1)%Z).
  { apply lt_IZR. rewrite plus_IZR. lra. }
  destruct (Z.eq_dec (Zfloor a) (Zfloor b)) as [E|E].
  - rewrite <- E in *.
    repeat destruct (Rlt_dec _ _); try lia; try lra; destruct (Z.even _); lia.
  - repeat destruct (Rlt_dec _ _);
      try destruct (Z.even (Zfloor a)); try destruct (Z.even (Zfloor b)); lia.
Qed.

Lemma py_round_0_mono (a b : R) : a <= b -> py_round a 0 <= py_round b 0.
Proof. intros H. rewrite !py_round_0. now apply IZR_le, round_half_even_mono. Qed.

Lemma py_round_one : py_round 1 2 = 1.
Proof.
  unfold py_round. replace (1 * 10 ^ 2) with (IZR 100) by (simpl; lra).
  rewrite (round_half_even_unique (IZR 100) 100) by lra. simpl. lra.
Qed.

(** The score when the point prediction is negative: the division by a
    negative [max_std] cannot bring it below 1. *)
Lemma confidence_score_of_negative (p : R) (o : option R) (c : R) :
  p < 0 -> (forall sd, o = Some sd -> 0 <= sd) ->
  confidence_score_of p o = Ok c -> c = 1.
Proof.
  intros Hp Hsd Hc. apply confidence_score_of_inv in Hc as [_ ->].
  unfold py_max, py_min. destruct o as [sd|]; cbn [fmap option_fmap option_map].
  - specialize (Hsd sd eq_refl).
    assert (Hq : 0 <= sd / - (p * 0.15)).
    { apply Rmult_le_pos; [exact Hsd|]. left. apply Rinv_0_lt_compat. lra. }
    assert (Hq' : sd / (p * 0.15) = - (sd / - (p * 0.15))).
    { field. lra. }
    destruct (Rlt_dec (1.0 - sd / (p * 0.15)) 1.0) as [Hlt|_]; [lra|].
    destruct (Rlt_dec 0.5 1.0); lra.
  - destruct (Rlt_dec 0.5 1.0); lra.
Qed.

(** X22.  The order of the three prices of a result follows the sign of the
    point prediction [p] of the model: for a positive [p] the range
    encloses the price; for a negative [p] its ends are swapped, the
    bound called low lying above the one called high, and the score is
    1.0. *)
Theorem predict_range_follows_sign (self : PredictionEngine)
    (location : string) (area_sqft : R) (bhk bathrooms floor total_floors : Z)
    (age_of_property : R) (parking lift : Z) (res : PredictionResult) (t : list event) :
  run_predict self location area_sqft bhk bathrooms floor total_floors
    age_of_property parking lift = (Ok res, t) ->
  exists (m : GradientBoostingRegressor) (x : list R) (p : R),
    model self = Some m /\ gbr_predict m x = Ok p
    /\ res_predicted_price res = py_round p 0
    /\ (0 < p ->
        low (res_price_range res) <= res_predicted_price res
        <= high (res_price_range res))
    /\ (p < 0 ->
        high (res_price_range res) <= res_predicted_price res
        <= low (res_price_range res)
        /\ res_confidence_score res = 1).
Proof.
  intros Hrun.
  apply predict_inversion in Hrun as (m & x & p & staged & c & Hm & Hp & _ & Hc & ->).
  exists m, x, p. split; [exact Hm|]. split; [exact Hp|].
  cbn [result_of res_predicted_price res_price_range res_confidence_score low high].
  split; [reflexivity|]. split.
  - intros Hpos. pose proof Hc as Hc'. apply confidence_score_of_inv in Hc' as [_ ->].
    pose proof (py_clamp_bounds ((fun sd => 1.0 - sd / (p * 0.15))
                                   <$> np_std (last_n 20 staged))) as Hb.
    pose proof (margin_of_bounds _ Hb) as Hmg.
    split; apply py_round_0_mono; nra.
  - intros Hneg.
    assert (Hone : c = 1).
    { apply (confidence_score_of_negative p (np_std (last_n 20 staged))); auto.
      intros sd. apply np_std_nonneg. }
    subst c. unfold margin_of.
    split; [split; apply py_round_0_mono; nra | apply py_round_one].
Qed.

(** X23.  The score does not rise and the margin does not shrink when the last
    stages spread more, for a positive point prediction. *)
Theorem confidence_antitone_in_spread (p sd1 sd2 c1 c2 : R) :
  0 < p -> 0 <= sd1 <= sd2 ->
  confidence_score_of p (Some sd1) = Ok c1 ->
  confidence_score_of p (Some sd2) = Ok c2 ->
  c2 <= c1 /\ margin_of c1 <= margin_of c2
  /\ (sd1 = 0 -> c1 = 1) /\ (0.075 * p <= sd2 -> c2 = 0.5).
Proof.
  intros Hp Hsd H1 H2.
  apply confidence_score_of_inv in H1 as [_ ->].
  apply confidence_score_of_inv in H2 as [_ ->].
  cbn [fmap option_fmap option_map]. rewrite !py_clamp_eq.
  assert (Hinv : 0 < / (p * 0.15)) by (apply Rinv_0_lt_compat; lra).
  assert (Hle : sd1 / (p * 0.15) <= sd2 / (p * 0.15)).
  { unfold Rdiv. apply Rmult_le_compat_r; lra. }
  assert (H0 : 0 <= sd1 / (p * 0.15)).
  { unfold Rdiv. apply Rmult_le_pos; lra. }
  assert (Hhalf : 0.075 * p <= sd2 -> 0.5 <= sd2 / (p * 0.15)).
  { intros Hbig.
    assert (Hq : sd2 / (p * 0.15) * (p * 0.15) = sd2).
    { unfold Rdiv. rewrite Rmult_assoc, Rinv_l; lra. }
    nra. }
  unfold margin_of, clamp, Rmax, Rmin.
  repeat split.
  - repeat destruct (Rle_dec _ _); lra.
  - repeat destruct (Rle_dec _ _); lra.
  - intros ->. unfold Rdiv in *. rewrite Rmult_0_l.
    repeat destruct (Rle_dec _ _); lra.
  - intros Hbig. specialize (Hhalf Hbig).
    repeat destruct (Rle_dec _ _); lra.
Qed.




Lemma predict_range_follows_sign_witness :
  exists (res : PredictionResult) (m : GradientBoostingRegressor) (x : list R) (p : R),
    model (loaded_engine ["Kharghar"]%string (-9000000) []) = Some m
    /\ gbr_predict m x = Ok p
    /\ res_predicted_price res = py_round p 0
    /\ (0 < p ->
        low (res_price_range res) <= res_predicted_price res
        <= high (res_price_range res))
    /\ (p < 0 ->
        high (res_price_range res) <= res_predicted_price res
        <= low (res_price_range res)
        /\ res_confidence_score res = 1).
Proof.
  assert (Hp : -9000000 <> 0) by lra.
  assert (Hin : "Kharghar"%string ∈ ["Kharghar"%string]) by now left.
  destruct (loaded_engine_runs ["Kharghar"]%string (-9000000) [] "Kharghar" 1000 2 2 5
              20 5 1 1 0 _ Hin eq_refl
              (confidence_score_of_nonzero (-9000000) (np_std (last_n 20 [])) Hp))
    as [t Hrun].
  eexists.
  exact (predict_range_follows_sign _ _ _ _ _ _ _ _ _ _ _ t Hrun).
Defined.

Lemma confidence_antitone_in_spread_witness :
  py_max 0.5 (py_min 1.0 (Some (1.0 - 15 / (100 * 0.15))))
  <= py_max 0.5 (py_min 1.0 (Some (1.0 - 0 / (100 * 0.15))))
  /\ margin_of (py_max 0.5 (py_min 1.0 (Some (1.0 - 0 / (100 * 0.15)))))
     <= margin_of (py_max 0.5 (py_min 1.0 (Some (1.0 - 15 / (100 * 0.15)))))
  /\ (0 = 0 -> py_max 0.5 (py_min 1.0 (Some (1.0 - 0 / (100 * 0.15)))) = 1)
  /\ (0.075 * 100 <= 15
      -> py_max 0.5 (py_min 1.0 (Some (1.0 - 15 / (100 * 0.15)))) = 0.5).
Proof.
  assert (Hp : 100 <> 0) by lra.
  apply (confidence_antitone_in_spread 100 0 15).
  - lra.
  - lra.
  - exact (confidence_score_of_nonzero 100 (Some 0) Hp).
  - exact (confidence_score_of_nonzero 100 (Some 15) Hp).
Defined.

